(** * MiniFarm AI edge node: a shallow embedding of [minifarm_ai_main.py]

    The development follows the source file top to bottom:

    - [PyStr]      the string operations the code calls ([lower], [in],
                   [replace]);
    - [Py]         Python/JSON values, truthiness, [dict.get];
    - [Labels]     label correction and species extraction of [detect];
    - [IO]         the HTTP and clock interactions as an inductive
                   interaction type with a state-passing interpreter;
    - [Cse]        [get_latest_cin_json], [_load_config_from_cse] and
                   [_send_to_tinyiot];
    - [Scheduler]  one iteration of the loop of [MiniFarmAI.run];
    - [Stream]     [StreamingOutput.write] and the consumer loop of
                   [StreamingHandler.do_GET] as atomic steps under the
                   condition's lock;
    - [Examples]   the server [setup_resources.py] provisions, for the
                   examples.

    Strings are sequences of 8-bit characters (code points below 256). *)

From stdpp Require Import base decidable option list gmap sets strings pretty sorting.
From Stdlib Require Import ZArith QArith Ascii String Lia.

Local Close Scope Q_scope.
Local Open Scope string_scope.
Local Open Scope list_scope.

(** ** Python string operations *)

Module PyStr.

(** [str.lower] on one character: [A]-[Z] and the Latin-1 capitals
    (U+00C0 to U+00DE, the multiplication sign U+00D7 apart) move up by 32;
    every other character below 256 is unchanged. *)
Definition lower_char (c : ascii) : ascii :=
  let n := N_of_ascii c in
  if ((65 <=? n) && (n <=? 90))%N then ascii_of_N (n + 32)
  else if ((192 <=? n) && (n <=? 222) && negb (n =? 215))%N then ascii_of_N (n + 32)
  else c.

Fixpoint lower (s : string) : string :=
  match s with
  | EmptyString => EmptyString
  | String c s' => String (lower_char c) (lower s')
  end.

(** [s.startswith(p)], the test the substring search and the replacement
    repeat at each position. *)
Fixpoint startswith (s p : string) {struct p} : bool :=
  match p with
  | EmptyString => true
  | String a p' =>
      match s with
      | EmptyString => false
      | String b s' => Ascii.eqb a b && startswith s' p'
      end
  end.

(** [p in s]: [p] occurs in [s] at some position (the empty string occurs
    everywhere, also in the empty string). *)
Fixpoint contains (s p : string) : bool :=
  startswith s p ||
  match s with
  | EmptyString => false
  | String _ s' => contains s' p
  end.

(** [s.replace(old, new)] for a non-empty [old]: scan from the left; at an
    occurrence of [old] emit [new] and resume after the occurrence (the
    [skip] counter drops its remaining [len(old) - 1] characters), otherwise
    copy one character. *)
Fixpoint replace_from (skip : nat) (s old new : string) : string :=
  match s with
  | EmptyString => EmptyString
  | String c s' =>
      match skip with
      | S k => replace_from k s' old new
      | O =>
          if startswith s old
          then new +:+ replace_from (String.length old - 1) s' old new
          else String c (replace_from 0 s' old new)
      end
  end.

Definition replace (s old new : string) : string := replace_from 0 s old new.

Fixpoint drop (n : nat) (s : string) : string :=
  match n, s with
  | O, _ => s
  | S _, EmptyString => EmptyString
  | S k, String _ s' => drop k s'
  end.

(** The non-empty suffixes of a string, longest first. *)
Fixpoint tails (s : string) : list string :=
  match s with
  | EmptyString => []
  | String _ s' => s :: tails s'
  end.

End PyStr.

(** ** Python values *)

Module Py.

(** What [r.json()] and [json.loads] produce, and what the code builds as
    request payloads.  [VNone] is Python's [None] (JSON [null]).  JSON
    numbers are integers here: the code only tests a number for truthiness
    and for its type, which do not tell a float from an int. *)
#[warnings="-register-all"]
Inductive value : Type :=
| VNone
| VBool (b : bool)
| VInt (n : Z)
| VStr (s : string)
| VList (l : list value)
| VDict (d : list (string * value)).

(** A [dict] in insertion order. *)
Definition pydict : Type := list (string * value).

(** The exceptions the code can meet. *)
Inductive exn : Type :=
| Timeout            (* requests.exceptions.Timeout *)
| RequestException   (* any other transport error *)
| JSONDecodeError
| AttributeError
| TypeError.

Inductive outcome (A : Type) : Type :=
| Returned (a : A)
| Raised (e : exn).
Arguments Returned {A} a.
Arguments Raised {A} e.

Definition obind {A B} (o : outcome A) (f : A -> outcome B) : outcome B :=
  match o with
  | Returned a => f a
  | Raised e => Raised e
  end.

(** [bool(v)], as [not v] and [if v:] use it. *)
Definition truthy (v : value) : bool :=
  match v with
  | VNone => false
  | VBool b => b
  | VInt n => negb (n =? 0)%Z
  | VStr s => negb (String.eqb s "")
  | VList l => match l with [] => false | _ => true end
  | VDict d => match d with [] => false | _ => true end
  end.

(** [isinstance(v, dict)]. *)
Definition isinstance_dict (v : value) : bool :=
  match v with VDict _ => true | _ => false end.

(** [d.get(key)] on a dict: the first binding of [key]. *)
Fixpoint dict_get {V : Type} (d : list (string * V)) (key : string) : option V :=
  match d with
  | [] => None
  | (k, v) :: d' => if String.eqb k key then Some v else dict_get d' key
  end.

(** [d[key] = v]: an existing key keeps its place, a new key goes last. *)
Fixpoint dict_set {V : Type} (d : list (string * V)) (key : string) (v : V)
  : list (string * V) :=
  match d with
  | [] => [(key, v)]
  | (k, w) :: d' =>
      if String.eqb k key then (k, v) :: d' else (k, w) :: dict_set d' key v
  end.

(** [{k: v for k, v in items}]. *)
Definition dict_of_items {V : Type} (items : list (string * V)) : list (string * V) :=
  foldl (fun d kv => dict_set d kv.1 kv.2) [] items.

(** [x.get(key, default)] on an arbitrary value: only a dict has [get]. *)
Definition py_get (x : value) (key : string) (dflt : value) : outcome value :=
  match x with
  | VDict d => Returned (default dflt (dict_get d key))
  | _ => Raised AttributeError
  end.

(** [str(i)] for a non-negative index. *)
Definition str_of_nat (i : nat) : string := pretty i.

End Py.

(** ** Label processing of [detect] *)

Module Labels.
Import PyStr Py.

(** Lines 303-305: the typo fix applied to every detected label. *)
Definition correct_label (health_label : string) : string :=
  if contains health_label "poinsenttia"
  then replace health_label "poinsenttia" "poinsettia"
  else health_label.

(** [MiniFarmAI.extract_species_from_label]. *)
Definition extract_species_from_label (label : string) : string :=
  let label_lower := lower label in
  if contains label_lower "basil" || contains label_lower "bail" then "basil"
  else if contains label_lower "poin" then "poinsettia"
  else "unknown".

(** The loop of [detect] over the detected labels (lines 298-314), with the
    label of detection [i] as input: it fills [health_data] and
    [unique_species_set].  Boxes and confidences only reach the annotated
    image. *)
Fixpoint detect_loop (i : nat) (labels : list string)
    (health_data : pydict) (unique_species_set : gset string)
  : pydict * gset string :=
  match labels with
  | [] => (health_data, unique_species_set)
  | raw_label :: rest =>
      let health_label := correct_label raw_label in
      let health_data := dict_set health_data (str_of_nat i) (VStr health_label) in
      let species := extract_species_from_label health_label in
      let unique_species_set :=
        if String.eqb species "unknown" then unique_species_set
        else {[ species ]} ∪ unique_species_set in
      detect_loop (S i) rest health_data unique_species_set
  end.

(** [sorted(list(unique_species_set))]: the elements in lexicographic
    order. *)
Definition sorted (l : list string) : list string := merge_sort String.le l.

(** Line 317: [{str(idx): species for idx, species in enumerate(sorted(...))}]. *)
Definition species_data_of (unique_species_set : gset string) : pydict :=
  dict_of_items
    (imap (fun idx species => (str_of_nat idx, VStr species))
          (sorted (elements unique_species_set))).

(** The two maps [detect] hands to [_send_to_tinyiot]. *)
Definition detect_maps (labels : list string) : pydict * pydict :=
  let '(health_data, unique_species_set) := detect_loop 0 labels [] ∅ in
  (species_data_of unique_species_set, health_data).

(** The species names the loop collects from [labels]. *)
Definition unique_species (labels : list string) : gset string :=
  (detect_loop 0 labels [] ∅).2.

Definition species_data (labels : list string) : pydict := (detect_maps labels).1.
Definition health_data (labels : list string) : pydict := (detect_maps labels).2.

End Labels.

(** ** Interactions with the outside world *)

Module IO.
Import Py.

Definition headers : Type := list (string * string).

(** What the code reads of a [requests] response: [r.status_code] and
    [r.json()], which raises on a body that is not JSON. *)
Record response : Type := {
  status_code : Z;
  json : outcome value;
}.

(** A computation that talks to the CSE and reads the clock.  Each call
    either returns or raises, as the [try] blocks around it expect. *)
Inductive io (A : Type) : Type :=
| Ret (a : A)
| Get (url : string) (hdrs : headers) (timeout : Z)
      (k : outcome response -> io A)               (* requests.get *)
| Post (url : string) (hdrs : headers) (payload : value) (timeout : Z)
       (k : outcome response -> io A)              (* requests.post(json=payload) *)
| Strftime (fmt : string) (k : string -> io A)     (* datetime.now().strftime(fmt) *)
| TimeTime (k : Q -> io A).                            (* time.time() *)
Arguments Ret {A} a.
Arguments Get {A} url hdrs timeout k.
Arguments Post {A} url hdrs payload timeout k.
Arguments Strftime {A} fmt k.
Arguments TimeTime {A} k.

Fixpoint bind {A B : Type} (m : io A) (f : A -> io B) : io B :=
  match m with
  | Ret a => f a
  | Get url hdrs t k => Get url hdrs t (fun r => bind (k r) f)
  | Post url hdrs p t k => Post url hdrs p t (fun r => bind (k r) f)
  | Strftime fmt k => Strftime fmt (fun s => bind (k s) f)
  | TimeTime k => TimeTime (fun t => bind (k t) f)
  end.

(** Sequencing inside a [try] block: a raised exception skips the rest. *)
Definition try_bind {A B : Type} (m : io (outcome A)) (f : A -> io (outcome B))
  : io (outcome B) :=
  bind m (fun o => match o with
                   | Returned a => f a
                   | Raised e => Ret (Raised e)
                   end).

(** The HTTP requests of a run, with what each one got back. *)
Inductive event : Type :=
| EGet (url : string) (hdrs : headers) (timeout : Z) (result : outcome response)
| EPost (url : string) (hdrs : headers) (payload : value) (timeout : Z)
        (result : outcome response).

(** The outside world: a server and a clock over some state [W]. *)
Record world (W : Type) : Type := {
  requests_get : string -> headers -> Z -> W -> outcome response * W;
  requests_post : string -> headers -> value -> Z -> W -> outcome response * W;
  now_strftime : string -> W -> string * W;
  time_time : W -> Q * W;
}.
Arguments requests_get {W} _ _ _ _ _.
Arguments requests_post {W} _ _ _ _ _ _.
Arguments now_strftime {W} _ _ _.
Arguments time_time {W} _ _.

(** Running a computation against a world: the result, the final state and
    the HTTP requests made, oldest first. *)
Fixpoint run {W A : Type} (env : world W) (m : io A) (w : W) : A * W * list event :=
  match m with
  | Ret a => (a, w, [])
  | Get url hdrs t k =>
      let '(r, w1) := requests_get env url hdrs t w in
      let '(a, w2, tr) := run env (k r) w1 in
      (a, w2, EGet url hdrs t r :: tr)
  | Post url hdrs p t k =>
      let '(r, w1) := requests_post env url hdrs p t w in
      let '(a, w2, tr) := run env (k r) w1 in
      (a, w2, EPost url hdrs p t r :: tr)
  | Strftime fmt k =>
      let '(s, w1) := now_strftime env fmt w in run env (k s) w1
  | TimeTime k =>
      let '(t, w1) := time_time env w in run env (k t) w1
  end.

End IO.

(** ** The oneM2M client: config read, config resolution, upload *)

Module Cse.
Import Py IO.

Declare Scope io_scope.
Delimit Scope io_scope with io.
Notation "x <- m ; k" := (bind m (fun x => k))
  (at level 20, m at level 100, k at level 200, only parsing) : io_scope.
Notation "x <-! m ; k" := (try_bind m (fun x => k))
  (at level 20, m at level 100, k at level 200, only parsing) : io_scope.

Definition TINYIOT_URL : string := "http://YOUR_SERVER_IP:3000".
Definition AE_NAME : string := "TinyFarm".
Definition RASPI_ORIGIN : string := "SRaspberryPi_AI".

(** [self.config]: the dict literal of lines 211-218 has these six keys. *)
Record config : Type := {
  model_species_path : value;
  model_health_path : value;
  output_species : value;
  output_health : value;
  url_species : string;
  url_health : string;
}.

Section Client.

(** Library functions the client calls. *)
Variable json_loads : string -> option value.  (* None: JSONDecodeError *)
Variable json_dumps : value -> string.
Variable py_repr : value -> string.            (* str() of a list or a dict *)
Variable str_float : Q -> string.              (* str() of a float *)

(** [json.loads(x)]: only text can be decoded. *)
Definition py_json_loads (x : value) : outcome value :=
  match x with
  | VStr s =>
      match json_loads s with
      | Some v => Returned v
      | None => Raised JSONDecodeError
      end
  | _ => Raised TypeError
  end.

(** [f"{v}"]. *)
Definition py_format (v : value) : string :=
  match v with
  | VStr s => s
  | VNone => "None"
  | VBool true => "True"
  | VBool false => "False"
  | VInt n => pretty n
  | _ => py_repr v
  end.

(** The [try] block of [get_latest_cin_json] (lines 115-141) once
    [requests.get] has returned or raised. *)
Definition latest_cin_of (got : outcome response) : outcome value :=
  obind got (fun r =>
  if (status_code r =? 200)%Z then
    obind (json r) (fun body =>
    obind (py_get body "m2m:cin" (VDict [])) (fun cin_data =>
    obind (py_get cin_data "con" VNone) (fun json_content =>
    if negb (truthy json_content) then Returned VNone
    else if isinstance_dict json_content then Returned json_content
    else py_json_loads json_content)))
  else if (status_code r =? 403)%Z then Returned VNone
  else if (status_code r =? 404)%Z then Returned VNone
  else Returned VNone).

(** The [except] clauses of lines 142-150: each one returns [None]. *)
Definition none_on_exception (o : outcome value) : value :=
  match o with
  | Returned v => v
  | Raised Timeout => VNone
  | Raised JSONDecodeError => VNone
  | Raised _ => VNone
  end.

Definition get_latest_cin_json (container_url origin : string) : io value :=
  let url := container_url +:+ "/la" in
  let headers :=
    [("X-M2M-Origin", origin); ("X-M2M-RVI", "2a"); ("Accept", "application/json")] in
  Get url headers 5 (fun got => Ret (none_on_exception (latest_cin_of got))).

Local Open Scope io_scope.

(** The [try] block of [_load_config_from_cse] (lines 188-220). *)
Definition load_config_try : io (outcome (option config)) :=
  let deploy_list_path :=
    TINYIOT_URL +:+ "/TinyIoT/" +:+ AE_NAME +:+ "/modelDeploymentList" in
  let deploy_species_url := deploy_list_path +:+ "/modelDeploy_species" in
  deploy_species_data <- get_latest_cin_json deploy_species_url RASPI_ORIGIN ;
  if negb (truthy deploy_species_data) then Ret (Returned None) else
  let deploy_health_url := deploy_list_path +:+ "/modelDeploy_healthy" in
  deploy_health_data <- get_latest_cin_json deploy_health_url RASPI_ORIGIN ;
  if negb (truthy deploy_health_data) then Ret (Returned None) else
  model_species_id_path <-! Ret (py_get deploy_species_data "modelID" VNone) ;
  model_health_id_path <-! Ret (py_get deploy_health_data "modelID" VNone) ;
  model_species_data <-
    get_latest_cin_json (TINYIOT_URL +:+ py_format model_species_id_path) RASPI_ORIGIN ;
  model_health_data <-
    get_latest_cin_json (TINYIOT_URL +:+ py_format model_health_id_path) RASPI_ORIGIN ;
  if negb (truthy model_species_data) || negb (truthy model_health_data)
  then Ret (Returned None) else
  Ret (obind (py_get model_species_data "mlModelPath" VNone) (fun species_path =>
       obind (py_get model_health_data "mlModelPath" VNone) (fun health_path =>
       obind (py_get deploy_species_data "outputResource" VNone) (fun out_species =>
       obind (py_get deploy_health_data "outputResource" VNone) (fun out_health =>
       Returned (Some {|
         model_species_path := species_path;
         model_health_path := health_path;
         output_species := out_species;
         output_health := out_health;
         url_species := TINYIOT_URL +:+ py_format out_species;
         url_health := TINYIOT_URL +:+ py_format out_health;
       |})))))).

(** [_load_config_from_cse]: [None] stands for Python's [None]. *)
Definition _load_config_from_cse : io (option config) :=
  o <- load_config_try ;
  Ret (match o with
       | Returned c => c
       | Raised _ => None
       end).

(** The four reads of a resolution and the config they give: [field v key]
    is [v.get(key)] on a dict. *)
Definition field (v : value) (key : string) : value :=
  match py_get v key VNone with
  | Returned x => x
  | Raised _ => VNone
  end.

Definition deploy_species_url : string :=
  TINYIOT_URL +:+ "/TinyIoT/" +:+ AE_NAME +:+ "/modelDeploymentList"
  +:+ "/modelDeploy_species".

Definition deploy_health_url : string :=
  TINYIOT_URL +:+ "/TinyIoT/" +:+ AE_NAME +:+ "/modelDeploymentList"
  +:+ "/modelDeploy_healthy".

Definition model_url (deploy_data : value) : string :=
  TINYIOT_URL +:+ py_format (field deploy_data "modelID").

Definition config_of (deploy_species_data deploy_health_data
                      model_species_data model_health_data : value) : config := {|
  model_species_path := field model_species_data "mlModelPath";
  model_health_path := field model_health_data "mlModelPath";
  output_species := field deploy_species_data "outputResource";
  output_health := field deploy_health_data "outputResource";
  url_species := TINYIOT_URL +:+ py_format (field deploy_species_data "outputResource");
  url_health := TINYIOT_URL +:+ py_format (field deploy_health_data "outputResource");
|}.

(** [{"timestamp": timestamp, "data": data}]. *)
Definition with_timestamp (timestamp : string) (data : pydict) : value :=
  VDict [("timestamp", VStr timestamp); ("data", VDict data)].

(** Lines 372 and 388: the body of the POST. *)
Definition cin_payload (json_string : string) : value :=
  VDict [("m2m:cin", VDict [("con", VStr "data"); ("lbl", VList [VStr json_string])])].

(** Lines 375-382 and 393-400: what one POST does to [all_success]. *)
Definition track_success (all_success : bool) (posted : outcome response) : bool :=
  match posted with
  | Returned r => if (status_code r =? 201)%Z then all_success else false
  | Raised _ => false
  end.

Definition _send_to_tinyiot (cfg : config) (species_data health_data : pydict)
  : io bool :=
  timestamp <- Strftime "%Y-%m-%d %H:%M:%S" Ret ;
  now <- TimeTime Ret ;
  let headers :=
    [("X-M2M-Origin", RASPI_ORIGIN);
     ("X-M2M-RVI", "2a");
     ("Accept", "application/json");
     ("Content-Type", "application/json; ty=4");
     ("X-M2M-RI", "create_cin_" +:+ str_float now)] in
  let all_success := true in
  all_success <-
    (if truthy (VDict species_data) then
       let species_with_timestamp := with_timestamp timestamp species_data in
       let json_string := json_dumps species_with_timestamp in
       let payload := cin_payload json_string in
       r <- Post (url_species cfg) headers payload 10 Ret ;
       Ret (track_success all_success r)
     else Ret all_success) ;
  all_success <-
    (if truthy (VDict health_data) then
       let health_with_timestamp := with_timestamp timestamp health_data in
       let json_string := json_dumps health_with_timestamp in
       let payload := cin_payload json_string in
       later <- TimeTime Ret ;
       let headers_health :=
         dict_set headers "X-M2M-RI" ("create_cin_" +:+ str_float (later + 1)%Q) in
       r <- Post (url_health cfg) headers_health payload 10 Ret ;
       Ret (track_success all_success r)
     else Ret all_success) ;
  Ret all_success.

End Client.

(** The field [key] of the [m2m:cin] object of a request body. *)
Definition cin_field (payload : value) (key : string) : option value :=
  match payload with
  | VDict d =>
      match dict_get d "m2m:cin" with
      | Some (VDict cin) => dict_get cin key
      | _ => None
      end
  | _ => None
  end.

(** A read that gave a non-empty dict. *)
Definition structured (v : value) : bool :=
  match v with
  | VDict (_ :: _) => true
  | _ => false
  end.

(** The nested content field of a response body: [body["m2m:cin"]["con"]],
    when the body is JSON and both levels are objects holding the key. *)
Definition content_of (r : response) : option value :=
  match json r with
  | Returned (VDict body) =>
      match dict_get body "m2m:cin" with
      | Some (VDict cin) => dict_get cin "con"
      | _ => None
      end
  | _ => None
  end.

(** The POSTs of a run: URL, body and result. *)
Definition posts (tr : list event) : list (string * value * outcome response) :=
  omap (fun e => match e with
                 | EPost url _ payload _ r => Some (url, payload, r)
                 | EGet _ _ _ _ => None
                 end) tr.

Definition created (r : outcome response) : bool :=
  match r with
  | Returned r => (status_code r =? 201)%Z
  | Raised _ => false
  end.

(** The records the server holds after a run: one per POST answered 201. *)
Definition created_records (tr : list event) : list (string * value) :=
  (fun p => p.1) <$> filter (fun p => created p.2 = true) (posts tr).

End Cse.

(** ** The scheduler loop *)

Module Scheduler.

(** [TARGET_HOURS = list(range(24))]. *)
Definition TARGET_HOURS : list Z := seqZ 0 24.

(** [self.last_detection_hour], with the calls of [self.detect()] made so
    far (the hour of each, oldest first). *)
Record state : Type := {
  last_detection_hour : Z;
  cycles : list Z;
}.

(** [__init__]: [self.last_detection_hour = -1]. *)
Definition initial : state := {| last_detection_hour := -1; cycles := [] |}.

(** One iteration of the [while True] loop of [run] (lines 416-429) with
    [current_hour] read from the clock, for a given list of target hours.
    [detect] catches its own exceptions, so the assignment after it always
    runs. *)
Definition tick (target_hours : list Z) (current_hour : Z) (st : state) : state :=
  if bool_decide (current_hour ∈ target_hours)
     && negb (current_hour =? last_detection_hour st)%Z
  then {| last_detection_hour := current_hour;
          cycles := cycles st ++ [current_hour] |}
  else if negb (current_hour =? last_detection_hour st)%Z
       then {| last_detection_hour := -1; cycles := cycles st |}
       else st.

(** The loop over the hours read at successive polls. *)
Definition ticks (target_hours : list Z) (hours : list Z) (st : state) : state :=
  foldl (fun st h => tick target_hours h st) st hours.

End Scheduler.

(** ** The frame buffer and its viewers *)

Module Stream.

Definition payload : Type := list Byte.byte.

(** Where a handler thread stands in the loop of lines 89-98. *)
Inductive pc : Type :=
| LoopTop                 (* outside the [with] block *)
| InWait (since : nat)    (* inside [condition.wait()], not yet notified *)
| Notified (since : nat). (* notified, about to take the lock again *)

Record viewer : Type := {
  connected_at : nat;     (* frames written before the viewer connected *)
  at_pc : pc;
}.

(** One frame handed to a viewer (line 92), with the number of frames
    written when the viewer connected, when it began that wait and when it
    read the buffer. *)
Record delivery : Type := {
  who : nat;
  since_connect : nat;
  since_wait : nat;
  read_at : nat;
  seen : option (nat * payload);
}.

(** [StreamingOutput]: the single slot [frame], each frame tagged with its
    rank among the frames written; the handler threads; and the frames
    delivered so far, oldest first. *)
Record state : Type := {
  frame : option (nat * payload);
  written : nat;
  viewers : gmap nat viewer;
  log : list delivery;
}.

(** [StreamingOutput.__init__]: [self.frame = None]; nobody connected. *)
Definition initial : state :=
  {| frame := None; written := 0; viewers := ∅; log := [] |}.

(** The steps that are atomic under the condition's lock. *)
Inductive action : Type :=
| WriteFrame (buf : payload)  (* [StreamingOutput.write]: lines 52-54 *)
| Connect (v : nat)      (* a GET of /stream.mjpg reaches the loop *)
| Wait (v : nat)         (* lines 90-91: take the lock, enter [wait()] *)
| Wake (v : nat)         (* [wait()] returns with the lock; line 92 reads *)
| Hangup (v : nat).        (* a write to the socket fails: handler ends *)

Definition notify (vw : viewer) : viewer :=
  match at_pc vw with
  | InWait since => {| connected_at := connected_at vw; at_pc := Notified since |}
  | _ => vw
  end.

Definition step (a : action) (st : state) : option state :=
  match a with
  | WriteFrame buf =>
      Some {| frame := Some (S (written st), buf);
              written := S (written st);
              viewers := notify <$> viewers st;
              log := log st |}
  | Connect v =>
      match viewers st !! v with
      | Some _ => None
      | None =>
          Some {| frame := frame st; written := written st;
                  viewers := <[v := {| connected_at := written st; at_pc := LoopTop |}]>
                               (viewers st);
                  log := log st |}
      end
  | Wait v =>
      match viewers st !! v with
      | Some {| connected_at := c; at_pc := LoopTop |} =>
          Some {| frame := frame st; written := written st;
                  viewers := <[v := {| connected_at := c; at_pc := InWait (written st) |}]>
                               (viewers st);
                  log := log st |}
      | _ => None
      end
  | Wake v =>
      match viewers st !! v with
      | Some {| connected_at := c; at_pc := Notified since |} =>
          Some {| frame := frame st; written := written st;
                  viewers := <[v := {| connected_at := c; at_pc := LoopTop |}]>
                               (viewers st);
                  log := log st ++ [{| who := v; since_connect := c;
                                       since_wait := since;
                                       read_at := written st;
                                       seen := frame st |}] |}
      | _ => None
      end
  | Hangup v =>
      match viewers st !! v with
      | Some _ =>
          Some {| frame := frame st; written := written st;
                  viewers := delete v (viewers st); log := log st |}
      | None => None
      end
  end.

(** A schedule of steps; [None] when a step is not enabled. *)
Fixpoint exec (acts : list action) (st : state) : option state :=
  match acts with
  | [] => Some st
  | a :: acts' =>
      match step a st with
      | Some st' => exec acts' st'
      | None => None
      end
  end.

(** A delivered frame is fresh when it is the newest frame at the time of
    the read and was written after the wait began. *)
Definition fresh (d : delivery) : Prop :=
  exists buf, seen d = Some (read_at d, buf) /\
    since_connect d <= since_wait d /\ since_wait d < read_at d.

(** The claim that a delivery is the first frame written after the viewer
    connected. *)
Definition first_after_connect (d : delivery) : Prop :=
  exists buf, seen d = Some (S (since_connect d), buf).

Definition viewer_ok (n : nat) (vw : viewer) : Prop :=
  connected_at vw <= n /\
  match at_pc vw with
  | LoopTop => True
  | InWait since => connected_at vw <= since /\ since <= n
  | Notified since => connected_at vw <= since /\ since < n
  end.

(** The invariant of the buffer: the slot holds the newest frame once one
    was written, and a notified viewer began its wait before that frame. *)
Record inv (st : state) : Prop := {
  inv_tag : forall n buf, frame st = Some (n, buf) -> n = written st;
  inv_some : 0 < written st -> is_Some (frame st);
  inv_viewers : forall v vw, viewers st !! v = Some vw -> viewer_ok (written st) vw;
  inv_log : Forall fresh (log st);
}.

End Stream.

(** ** A provisioned server, for the examples *)

Module Examples.
Import Py IO Cse.

Definition dquote : string := String "034"%char EmptyString.
Definition backslash : string := String "092"%char EmptyString.

Fixpoint escape (s : string) : string :=
  match s with
  | EmptyString => EmptyString
  | String c s' =>
      if Ascii.eqb c "034"%char then backslash +:+ dquote +:+ escape s'
      else if Ascii.eqb c "092"%char then backslash +:+ backslash +:+ escape s'
      else String c (escape s')
  end.

Definition quote (s : string) : string := dquote +:+ escape s +:+ dquote.

(** [json.dumps] with its default separators, for values whose strings are
    printable ASCII. *)
Fixpoint dumps (v : value) : string :=
  match v with
  | VNone => "null"
  | VBool true => "true"
  | VBool false => "false"
  | VInt n => pretty n
  | VStr s => quote s
  | VList l =>
      "[" +:+
      (fix items (l : list value) : string :=
         match l with
         | [] => ""
         | x :: l' =>
             dumps x +:+ match l' with [] => "" | _ => ", " +:+ items l' end
         end) l +:+ "]"
  | VDict d =>
      "{" +:+
      (fix items (d : list (string * value)) : string :=
         match d with
         | [] => ""
         | (k, x) :: d' =>
             quote k +:+ ": " +:+ dumps x +:+
             match d' with [] => "" | _ => ", " +:+ items d' end
         end) d +:+ "}"
  end.

(** The records [setup_resources.py] creates. *)
Definition ML_MODEL_SPECIES_DATA : pydict :=
  [("name", VStr "species-detector");
   ("version", VStr "v1.0");
   ("platform", VStr "Ultralytics/PyTorch");
   ("description", VStr "Plant species detection (basil, poinsettia)");
   ("mlModelURL", VStr "");
   ("mlModelPath", VStr "/home/seslab/minifarm/best.pt")].

Definition ML_MODEL_HEALTH_DATA : pydict :=
  [("name", VStr "health-species-detector");
   ("version", VStr "v2.1");
   ("platform", VStr "Ultralytics/PyTorch");
   ("description", VStr "Health+Species detection (healthy_basil, etc.)");
   ("mlModelURL", VStr "");
   ("mlModelPath", VStr "/home/seslab/minifarm/last.pt")].

Definition DEPLOY_SPECIES_DATA : pydict :=
  [("modelID", VStr "/TinyIoT/modelRepo/mlModel-species");
   ("inputResource", VStr "/TinyIoT/TinyFarm/Camera/Images");
   ("outputResource", VStr "/TinyIoT/TinyFarm/inference/species");
   ("modelStatus", VStr "deployed")].

Definition DEPLOY_HEALTHY_DATA : pydict :=
  [("modelID", VStr "/TinyIoT/modelRepo/mlModel-health");
   ("inputResource", VStr "/TinyIoT/TinyFarm/Camera/Images");
   ("outputResource", VStr "/TinyIoT/TinyFarm/inference/health");
   ("modelStatus", VStr "deployed")].

(** The containers of the provisioned server with their latest record. *)
Definition containers : list (string * pydict) :=
  [("http://YOUR_SERVER_IP:3000/TinyIoT/modelRepo/mlModel-species",
    ML_MODEL_SPECIES_DATA);
   ("http://YOUR_SERVER_IP:3000/TinyIoT/modelRepo/mlModel-health",
    ML_MODEL_HEALTH_DATA);
   ("http://YOUR_SERVER_IP:3000/TinyIoT/TinyFarm/modelDeploymentList/modelDeploy_species",
    DEPLOY_SPECIES_DATA);
   ("http://YOUR_SERVER_IP:3000/TinyIoT/TinyFarm/modelDeploymentList/modelDeploy_healthy",
    DEPLOY_HEALTHY_DATA)].

(** [json.loads] on the documents of the provisioned server. *)
Definition loads (s : string) : option value :=
  VDict <$> List.find (fun doc => String.eqb (dumps (VDict doc)) s)
              (snd <$> containers).

(** [str] of a list or a dict: no example formats one, the JSON text
    stands in. *)
Definition repr (v : value) : string := dumps v.

(** [str] of a whole number of seconds. *)
Definition str_seconds (t : Q) : string := pretty (Qnum t / Zpos (Qden t))%Z +:+ ".0".

(** A server that answers [GET <container>/la] with the latest record, its
    content JSON-encoded in [con] as [create_content_instance] stores it,
    and 404 elsewhere; and answers a POST to [u] with [status u].  The
    state is the list of POST bodies received. *)
Definition latest (containers : list (string * pydict)) (url : string)
  : outcome response :=
  match List.find (fun c => String.eqb (c.1 +:+ "/la") url) containers with
  | Some c =>
      Returned {| status_code := 200;
                  json := Returned (VDict [("m2m:cin",
                            VDict [("con", VStr (dumps (VDict c.2)))])]) |}
  | None => Returned {| status_code := 404; json := Raised JSONDecodeError |}
  end.

Definition server (containers : list (string * pydict)) (status : string -> Z)
  : world (list (string * value)) := {|
  requests_get url _ _ w := (latest containers url, w);
  requests_post url _ payload _ w :=
    (Returned {| status_code := status url; json := Raised JSONDecodeError |},
     w ++ [(url, payload)]);
  now_strftime _ w := ("2024-05-01 09:00:00", w);
  time_time w := (1714554000%Q, w);
|}.

(** Every POST is answered 201. *)
Definition provisioned : world (list (string * value)) :=
  server containers (fun _ => 201%Z).

(** The health container answers 500. *)
Definition health_down : world (list (string * value)) :=
  server containers
    (fun url =>
       if String.eqb url "http://YOUR_SERVER_IP:3000/TinyIoT/TinyFarm/inference/health"
       then 500%Z else 201%Z).

(** The record of the health model is missing. *)
Definition health_model_missing : world (list (string * value)) :=
  server
    (List.filter
       (fun c =>
          negb (String.eqb c.1
                  "http://YOUR_SERVER_IP:3000/TinyIoT/modelRepo/mlModel-health"))
       containers)
    (fun _ => 201%Z).

(** The latest record of every container has empty content. *)
Definition empty_records : world unit := {|
  requests_get _ _ _ w :=
    (Returned {| status_code := 200;
                 json := Returned (VDict [("m2m:cin", VDict [("con", VStr "")])]) |},
     w);
  requests_post _ _ _ _ w :=
    (Returned {| status_code := 201; json := Raised JSONDecodeError |}, w);
  now_strftime _ w := ("2024-05-01 09:00:00", w);
  time_time w := (1714554000%Q, w);
|}.

Definition config_of_provisioned : config := {|
  model_species_path := VStr "/home/seslab/minifarm/best.pt";
  model_health_path := VStr "/home/seslab/minifarm/last.pt";
  output_species := VStr "/TinyIoT/TinyFarm/inference/species";
  output_health := VStr "/TinyIoT/TinyFarm/inference/health";
  url_species := "http://YOUR_SERVER_IP:3000/TinyIoT/TinyFarm/inference/species";
  url_health := "http://YOUR_SERVER_IP:3000/TinyIoT/TinyFarm/inference/health";
|}.

End Examples.

(** ** The detection cycle *)

Module Detect.
Import PyStr Py IO Cse Labels.

(** One detected object (lines 299-301): the box corners, the class name
    the model gives and the confidence. *)
Record detection : Type := {
  box : Z * Z * Z * Z;
  name : string;
  conf : Q;
}.

(** Line 328: the colour of the box drawn for a label. *)
Definition box_color (health_label : string) : Z * Z * Z :=
  if contains (lower health_label) "healthy" then (0, 255, 0)%Z else (255, 0, 0)%Z.

(** Whether some detected label names the species [sp]. *)
Definition has_species (sp : string) (labels : list string) : bool :=
  existsb (fun l => String.eqb (extract_species_from_label l) sp) labels.

Section Pipeline.
Variable json_dumps : value -> string.
Variable str_float : Q -> string.

(** [MiniFarmAI.detect] (lines 277-349).  The camera, the model and the
    drawing calls are outside the program: [captured] is what capturing and
    saving the raw image gave, [inferred] what the model and the reading of
    its boxes gave, [annotated] what drawing and saving the annotated image
    gave.  Any exception ends the cycle with [False]; otherwise the result
    is that of the upload. *)
Definition detect (cfg : config) (captured : outcome unit)
    (inferred : outcome (list detection)) (annotated : outcome unit) : io bool :=
  match captured with
  | Raised _ => Ret false
  | Returned _ =>
      match inferred with
      | Raised _ => Ret false
      | Returned detections =>
          let '(species_data, health_data) := detect_maps (name <$> detections) in
          match annotated with
          | Raised _ => Ret false
          | Returned _ => _send_to_tinyiot json_dumps str_float cfg species_data health_data
          end
      end
  end.

End Pipeline.

End Detect.

(** ** What a computation can request *)

Module Requests.
Import Py IO.

(** A computation whose every HTTP request satisfies [P], whatever the
    answers. *)
Fixpoint only {A : Type} (P : event -> Prop) (m : io A) : Prop :=
  match m with
  | Ret _ => True
  | Get url hdrs t k => forall r, P (EGet url hdrs t r) /\ only P (k r)
  | Post url hdrs p t k => forall r, P (EPost url hdrs p t r) /\ only P (k r)
  | Strftime _ k => forall s, only P (k s)
  | TimeTime k => forall t, only P (k t)
  end.

Definition is_post (e : event) : Prop :=
  match e with
  | EPost _ _ _ _ _ => True
  | EGet _ _ _ _ => False
  end.

Definition is_get (e : event) : Prop :=
  match e with
  | EGet _ _ _ _ => True
  | EPost _ _ _ _ _ => False
  end.

Definition event_url (e : event) : string :=
  match e with
  | EGet url _ _ _ => url
  | EPost url _ _ _ _ => url
  end.

(** The name ([rn]) a POST gives to the resource it creates: the body is
    one object keyed by the resource type. *)
Definition created_name (e : event) : option value :=
  match e with
  | EPost _ _ (VDict [(_, VDict attrs)]) _ _ => dict_get attrs "rn"
  | _ => None
  end.

End Requests.

(** ** The provisioning script [setup_resources.py] *)

Module Setup.
Import PyStr Py IO Cse.
Local Open Scope io_scope.

Definition CSE_BASE_PATH : string := TINYIOT_URL +:+ "/TinyIoT".
Definition REPO_PATH : string := CSE_BASE_PATH +:+ "/modelRepo".
Definition AE_PATH : string := CSE_BASE_PATH +:+ "/" +:+ AE_NAME.
Definition DEPLOY_LIST_PATH : string := AE_PATH +:+ "/modelDeploymentList".
Definition INFERENCE_PATH : string := AE_PATH +:+ "/inference".
Definition ADMIN_ORIGIN : string := "SRaspberryPi_AI".
Definition ACP_NAME : string := "acp_pi_full_access".

(** [s.split('/')[-1]]: what follows the last slash. *)
Fixpoint last_segment_from (acc s : string) : string :=
  match s with
  | EmptyString => acc
  | String c s' =>
      if Ascii.eqb c "/"%char then last_segment_from "" s'
      else last_segment_from (acc +:+ String c "") s'
  end.

Definition last_segment (s : string) : string := last_segment_from "" s.

(** The result of the creations that take "already exists" as done: 201
    or 409; an exception gives [False]. *)
Definition created_or_exists (posted : outcome response) : bool :=
  match posted with
  | Returned r =>
      if (status_code r =? 201)%Z then true
      else if (status_code r =? 409)%Z then true
      else false
  | Raised _ => false
  end.

(** Lines 60-90. *)
Definition create_ae (parent_url ae_name origin : string) : io bool :=
  let headers :=
    [("X-M2M-Origin", origin);
     ("X-M2M-RVI", "2a");
     ("Accept", "application/json");
     ("Content-Type", "application/json; ty=2");
     ("X-M2M-RI", "create_ae_" +:+ ae_name)] in
  let payload :=
    VDict [("m2m:ae", VDict [("rn", VStr ae_name);
                             ("api", VStr "N.org.example.my-app");
                             ("rr", VBool true)])] in
  r <- Post parent_url headers payload 5 Ret ;
  Ret (created_or_exists r).

(** [r.json().get("m2m:acp", {}).get("ri")]. *)
Definition ri_of (r : response) : outcome value :=
  obind (json r) (fun body =>
  obind (py_get body "m2m:acp" (VDict [])) (fun acp =>
  py_get acp "ri" VNone)).

(** Lines 95-99, 113-129: the headers and the body of the policy requests.
    [acop] 63 grants every operation. *)
Definition check_headers (origin : string) : headers :=
  [("X-M2M-Origin", origin); ("X-M2M-RVI", "2a"); ("Accept", "application/json")].

Definition acp_headers (acp_name origin : string) : headers :=
  [("X-M2M-Origin", origin);
   ("X-M2M-RVI", "2a");
   ("Accept", "application/json");
   ("Content-Type", "application/json; ty=1");
   ("X-M2M-RI", "create_acp_" +:+ acp_name)].

Definition acp_payload (acp_name origin_id : string) : value :=
  let access_rule := VDict [("acop", VInt 63); ("acor", VList [VStr origin_id])] in
  VDict [("m2m:acp", VDict [("rn", VStr acp_name);
                            ("pv", VDict [("acr", VList [access_rule])]);
                            ("pvs", VDict [("acr", VList [access_rule])])])].

(** Lines 112-148: the creation of the policy, when the check did not
    return. *)
Definition create_acp (parent_url acp_name origin_id origin : string) : io value :=
  r <- Post parent_url (acp_headers acp_name origin)
         (acp_payload acp_name origin_id) 5 Ret ;
  match r with
  | Raised _ => Ret VNone
  | Returned r =>
      if (status_code r =? 201)%Z then Ret (none_on_exception (ri_of r))
      else if (status_code r =? 409)%Z then
        r_get <- Get (parent_url +:+ "/" +:+ acp_name) (check_headers origin) 5 Ret ;
        match r_get with
        | Raised _ => Ret VNone
        | Returned r_get =>
            if (status_code r_get =? 200)%Z
            then Ret (none_on_exception (ri_of r_get))
            else Ret VNone
        end
      else Ret VNone
  end.

(** Lines 92-148.  The check returns the [ri] of an existing policy; an
    exception in the check is passed over ([except: pass]) and the policy
    is created like after any other answer. *)
Definition create_or_update_acp (parent_url acp_name origin_id origin : string)
  : io value :=
  let check_url := parent_url +:+ "/" +:+ acp_name in
  r_check <- Get check_url (check_headers origin) 5 Ret ;
  match r_check with
  | Returned r =>
      if (status_code r =? 200)%Z then
        match ri_of r with
        | Returned ri => Ret ri
        | Raised _ => create_acp parent_url acp_name origin_id origin
        end
      else create_acp parent_url acp_name origin_id origin
  | Raised _ => create_acp parent_url acp_name origin_id origin
  end.

(** Lines 150-180; [acp_ri_list] is [None] when the argument is left out. *)
Definition create_container (parent_url container_name origin : string)
    (acp_ri_list : value) : io bool :=
  let headers :=
    [("X-M2M-Origin", origin);
     ("X-M2M-RVI", "2a");
     ("Accept", "application/json");
     ("Content-Type", "application/json; ty=3");
     ("X-M2M-RI", "create_cnt_" +:+ container_name)] in
  let container_payload := [("rn", VStr container_name)] in
  let container_payload :=
    if truthy acp_ri_list then dict_set container_payload "acpi" acp_ri_list
    else container_payload in
  let payload := VDict [("m2m:cnt", VDict container_payload)] in
  r <- Post parent_url headers payload 5 Ret ;
  Ret (created_or_exists r).

Section Records.
Variable json_dumps : value -> string.

(** Lines 192-198: the body of a content instance. *)
Definition content_instance_payload (data_dict : pydict) : value :=
  let json_string := json_dumps (VDict data_dict) in
  VDict [("m2m:cin",
          VDict [("con", VStr json_string);
                 ("lbl", VList [VStr "config";
                                default (VStr "deployment") (dict_get data_dict "name")])])].

(** Lines 182-211: only 201 counts here. *)
Definition create_content_instance (container_url : string) (data_dict : pydict)
    (origin : string) : io bool :=
  let headers :=
    [("X-M2M-Origin", origin);
     ("X-M2M-RVI", "2a");
     ("Accept", "application/json");
     ("Content-Type", "application/json; ty=4");
     ("X-M2M-RI", "create_cin_" +:+ last_segment container_url)] in
  let payload := content_instance_payload data_dict in
  r <- Post container_url headers payload 5 Ret ;
  Ret (created r).

(** [if create_container(parent, name, ...): create_content_instance(...)]
    (lines 245-257). *)
Definition container_with_record (parent_url container_name : string)
    (acp_ri_list : value) (data_dict : pydict) : io unit :=
  made <- create_container parent_url container_name ADMIN_ORIGIN acp_ri_list ;
  if made then
    ignored <- create_content_instance (parent_url +:+ "/" +:+ container_name)
                 data_dict ADMIN_ORIGIN ;
    Ret tt
  else Ret tt.

(** [main] (lines 214-271), the printing left out. *)
Definition main : io unit :=
  made <- create_ae CSE_BASE_PATH AE_NAME ADMIN_ORIGIN ;
  if negb made then Ret tt else
  acp_ri <- create_or_update_acp CSE_BASE_PATH ACP_NAME ADMIN_ORIGIN ADMIN_ORIGIN ;
  if negb (truthy acp_ri) then Ret tt else
  let acp_ri_list := VList [acp_ri] in
  made <- create_container AE_PATH "modelDeploymentList" ADMIN_ORIGIN acp_ri_list ;
  if negb made then Ret tt else
  ignored <- container_with_record REPO_PATH "mlModel-species" acp_ri_list
               Examples.ML_MODEL_SPECIES_DATA ;
  ignored <- container_with_record REPO_PATH "mlModel-health" acp_ri_list
               Examples.ML_MODEL_HEALTH_DATA ;
  ignored <- container_with_record DEPLOY_LIST_PATH "modelDeploy_species" acp_ri_list
               Examples.DEPLOY_SPECIES_DATA ;
  ignored <- container_with_record DEPLOY_LIST_PATH "modelDeploy_healthy" acp_ri_list
               Examples.DEPLOY_HEALTHY_DATA ;
  made <- create_container AE_PATH "inference" ADMIN_ORIGIN acp_ri_list ;
  if made then
    ignored <- create_container INFERENCE_PATH "species" ADMIN_ORIGIN acp_ri_list ;
    ignored <- create_container INFERENCE_PATH "health" ADMIN_ORIGIN acp_ri_list ;
    Ret tt
  else Ret tt.

End Records.

(** The names [main] gives to the resources it creates. *)
Definition created_by_main : list string :=
  ["TinyFarm"; "acp_pi_full_access"; "modelDeploymentList"; "mlModel-species";
   "mlModel-health"; "modelDeploy_species"; "modelDeploy_healthy"; "inference";
   "species"; "health"].

(** A request that creates a named resource names it as [main] does. *)
Definition names_known (e : event) : Prop :=
  forall n, Requests.created_name e = Some n ->
    exists s, n = VStr s /\ s ∈ created_by_main.

End Setup.

(** ** Runs of the scheduler and of the frame buffer *)

Module Runs.

(** The polled hours that differ from the hour polled just before, [prev]
    standing before the first. *)
Fixpoint hour_changes (prev : Z) (hours : list Z) : list Z :=
  match hours with
  | [] => []
  | h :: hours' =>
      if (h =? prev)%Z then hour_changes prev hours'
      else h :: hour_changes h hours'
  end.

(** The frames a schedule writes, oldest first. *)
Definition writes (acts : list Stream.action) : list Stream.payload :=
  omap (fun a => match a with
                 | Stream.WriteFrame buf => Some buf
                 | _ => None
                 end) acts.

(** Deliveries to one viewer come in the order of the frames. *)
Definition log_ordered (l : list Stream.delivery) : Prop :=
  forall i j d1 d2, l !! i = Some d1 -> l !! j = Some d2 -> i < j ->
    Stream.who d1 = Stream.who d2 -> Stream.read_at d1 < Stream.read_at d2.

(** What the log keeps besides [Stream.inv]: no delivery is ahead of the
    writes, and a waiting viewer began its wait after all its deliveries. *)
Record log_inv (st : Stream.state) : Prop := {
  log_order : log_ordered (Stream.log st);
  log_past : Forall (fun d => Stream.read_at d <= Stream.written st) (Stream.log st);
  log_waiting : forall v vw since,
    Stream.viewers st !! v = Some vw ->
    Stream.at_pc vw = Stream.InWait since \/ Stream.at_pc vw = Stream.Notified since ->
    Forall (fun d => Stream.who d = v -> Stream.read_at d <= since) (Stream.log st);
}.

End Runs.

(** ** More servers, for the examples *)

Module Scenarios.
Import Py IO Cse.




(** A server whose latest record everywhere is an upload of the device. *)
Definition uploads_only : world unit := {|
  requests_get _ _ _ w :=
    (Returned {| status_code := 200;
                 json := Returned (cin_payload "{}") |}, w);
  requests_post _ _ _ _ w :=
    (Returned {| status_code := 201; json := Raised JSONDecodeError |}, w);
  now_strftime _ w := ("2024-05-01 09:00:00", w);
  time_time w := (1714554000%Q, w);
|}.

(** A server that answers every GET with 200 and one policy, and every
    POST with [status]. *)
Definition policy_server (status : Z) : world unit := {|
  requests_get _ _ _ w :=
    (Returned {| status_code := 200;
                 json := Returned (VDict [("m2m:acp", VDict [("ri", VStr "acp1")])]) |},
     w);
  requests_post _ _ _ _ w :=
    (Returned {| status_code := status; json := Raised JSONDecodeError |}, w);
  now_strftime _ w := ("2024-05-01 09:00:00", w);
  time_time w := (1714554000%Q, w);
|}.

(** A server that answers 409 to every POST and 404 to every GET. *)
Definition conflicts : world unit := {|
  requests_get _ _ _ w :=
    (Returned {| status_code := 404; json := Raised JSONDecodeError |}, w);
  requests_post _ _ _ _ w :=
    (Returned {| status_code := 409; json := Raised JSONDecodeError |}, w);
  now_strftime _ w := ("2024-05-01 09:00:00", w);
  time_time w := (1714554000%Q, w);
|}.

(** A server that stores the body of the last POST and gives it back on
    every GET. *)
Definition echo : world (option value) := {|
  requests_get _ _ _ w :=
    (match w with
     | Some body => Returned {| status_code := 200; json := Returned body |}
     | None => Returned {| status_code := 404; json := Raised JSONDecodeError |}
     end, w);
  requests_post _ _ payload _ w :=
    (Returned {| status_code := 201; json := Raised JSONDecodeError |}, Some payload);
  now_strftime _ w := ("2024-05-01 09:00:00", w);
  time_time w := (1714554000%Q, w);
|}.

End Scenarios.

(** * Theorems *)

(** ** Strings *)

Section StringFacts.
Import PyStr.

Lemma app_cons a s r : String a s +:+ r = String a (s +:+ r).
Proof. reflexivity. Qed.

Lemma startswith_app s p :
  startswith s p = true -> s = p +:+ drop (String.length p) s.
Proof.
  revert s; induction p as [|a p IH]; intros s H.
  - reflexivity.
  - destruct s as [|b s]; [discriminate|].
    simpl in H. apply andb_true_iff in H as [Hab Hrest].
    apply Ascii.eqb_eq in Hab as ->.
    rewrite app_cons. simpl. f_equal. now apply IH.
Qed.

Lemma startswith_self_app p r : startswith (p +:+ r) p = true.
Proof.
  induction p as [|a p IH]; [reflexivity|].
  rewrite app_cons. simpl. now rewrite Ascii.eqb_refl, IH.
Qed.

(** [contains] is the substring test. *)
Lemma contains_iff s p :
  contains s p = true <-> exists a b, s = a +:+ p +:+ b.
Proof.
  induction s as [|c s IH]; cbn [contains].
  - rewrite orb_false_r. split.
    + intros H. exists "", "". destruct p; [reflexivity|discriminate].
    + intros (a & b & H). destruct a; [|discriminate].
      destruct p; [reflexivity|discriminate].
  - rewrite orb_true_iff, IH. split.
    + intros [H|(a & b & ->)].
      * exists "", (drop (String.length p) (String c s)). now apply startswith_app.
      * now exists (String c a), b.
    + intros (a & b & H). destruct a as [|c' a].
      * left. change ("" +:+ p +:+ b) with (p +:+ b) in H. rewrite H.
        apply startswith_self_app.
      * right. rewrite app_cons in H. injection H as _ ->. now exists a, b.
Qed.

Lemma replace_copy c s old new :
  startswith (String c s) old = false ->
  replace (String c s) old new = String c (replace s old new).
Proof. unfold replace; simpl replace_from; intros ->; reflexivity. Qed.

Lemma length_app s1 s2 :
  String.length (s1 +:+ s2) = String.length s1 + String.length s2.
Proof. induction s1; [reflexivity|]. rewrite app_cons; simpl; congruence. Qed.

(** Induction on the length of a string: the replacement resumes after a
    whole occurrence, which is not an immediate substring. *)
Lemma string_length_ind (P : string -> Prop) :
  (forall s, (forall t, String.length t < String.length s -> P t) -> P s) ->
  forall s, P s.
Proof.
  intros step s.
  remember (String.length s) as n eqn:Hn.
  revert s Hn; induction n as [n IH] using lt_wf_ind; intros s ->.
  apply step; intros t Ht; now apply (IH (String.length t)).
Qed.

End StringFacts.

(** ** Label correction *)

Section CorrectionFacts.
Import PyStr Labels.

Lemma replace_hit r :
  replace ("poinsenttia" +:+ r) "poinsenttia" "poinsettia"
  = "poinsettia" +:+ replace r "poinsenttia" "poinsettia".
Proof. reflexivity. Qed.

Lemma tails_typo_cons p :
  In p (tails "poinsenttia") ->
  exists a p', p = String a p' /\ (p' = "" \/ In p' (tails "poinsenttia")).
Proof.
  simpl; intros H.
  repeat (destruct H as [<-|H];
          [eexists _, _; split; [reflexivity|]; simpl; tauto|]).
  destruct H.
Qed.

(** No suffix of the misspelling starts at the front of a replacement. *)
Lemma fixed_blocks_tails p r :
  In p (tails "poinsenttia") -> startswith ("poinsettia" +:+ r) p = false.
Proof.
  simpl; intros H.
  repeat (destruct H as [<-|H]; [reflexivity|]).
  destruct H.
Qed.

(** A suffix of the misspelling at the front of the output was already at
    the front of the input. *)
Lemma replace_front_tail s :
  forall p, In p (tails "poinsenttia") ->
    startswith (replace s "poinsenttia" "poinsettia") p = true -> startswith s p = true.
Proof.
  induction s as [s IH] using string_length_ind; intros p Hp.
  destruct s as [|c s].
  - destruct (tails_typo_cons p Hp) as (a & p' & -> & _); simpl; discriminate.
  - destruct (startswith (String c s) "poinsenttia") eqn:Hhit.
    + apply startswith_app in Hhit. rewrite Hhit, replace_hit.
      now rewrite (fixed_blocks_tails p _ Hp).
    + rewrite (replace_copy _ _ _ _ Hhit).
      destruct (tails_typo_cons p Hp) as (a & p' & -> & Hp').
      simpl. intros H. apply andb_true_iff in H as [Ha Hrest].
      rewrite Ha; simpl.
      destruct Hp' as [->|Hp']; [reflexivity|].
      apply (IH s); [simpl; lia|exact Hp'|exact Hrest].
Qed.

(** The output of the replacement holds no occurrence of the misspelling. *)
Lemma replace_removes_typo s :
  contains (replace s "poinsenttia" "poinsettia") "poinsenttia" = false.
Proof.
  induction s as [s IH] using string_length_ind.
  destruct s as [|c s]; [reflexivity|].
  destruct (startswith (String c s) "poinsenttia") eqn:Hhit.
  - apply startswith_app in Hhit. rewrite Hhit, replace_hit.
    change (contains ("poinsettia" +:+ ?r) "poinsenttia") with (contains r "poinsenttia").
    apply IH. rewrite Hhit at 2. rewrite length_app. simpl. lia.
  - rewrite (replace_copy _ _ _ _ Hhit).
    cbn [contains]. rewrite (IH s) by (simpl; lia).
    rewrite orb_false_r.
    destruct (startswith (String c (replace s "poinsenttia" "poinsettia")) "poinsenttia") eqn:Hfront;
      [|reflexivity].
    rewrite <- (replace_copy _ _ _ _ Hhit) in Hfront.
    apply replace_front_tail in Hfront; [congruence|simpl; tauto].
Qed.

(** C6: the label correction of [detect] (replace every occurrence of
    "poinsenttia" by "poinsettia") is idempotent. *)
Theorem correct_label_idempotent (x : string) :
  correct_label (correct_label x) = correct_label x.
Proof.
  unfold correct_label.
  destruct (contains x "poinsenttia") eqn:Hx.
  - now rewrite (replace_removes_typo x).
  - now rewrite Hx.
Qed.

End CorrectionFacts.

Example lower_mixed : PyStr.lower "BASIL_unhealthy" = "basil_unhealthy".
Proof. reflexivity. Qed.

Example replace_twice :
  PyStr.replace "a poinsenttia, poinsenttiapoinsenttia!" "poinsenttia" "poinsettia"
  = "a poinsettia, poinsettiapoinsettia!".
Proof. reflexivity. Qed.

Example extract_examples :
  Labels.extract_species_from_label "healthy_Basil" = "basil" /\
  Labels.extract_species_from_label "POINsettia_unhealthy" = "poinsettia" /\
  Labels.extract_species_from_label "tomato" = "unknown".
Proof. repeat split; reflexivity. Qed.

(** ** Species extraction *)

Section SpeciesFacts.
Import PyStr Py Labels.

Lemma extract_species_cases label :
  extract_species_from_label label = "basil" \/
  extract_species_from_label label = "poinsettia" \/
  extract_species_from_label label = "unknown".
Proof.
  unfold extract_species_from_label.
  destruct (_ || _); [tauto|]. destruct (contains _ "poin"); tauto.
Qed.

(** The keyword table in terms of substrings of the lower-cased label. *)
Lemma extract_species_keywords label :
  (extract_species_from_label label = "basil" <->
   (exists a b, lower label = a +:+ "basil" +:+ b) \/
   (exists a b, lower label = a +:+ "bail" +:+ b)) /\
  (extract_species_from_label label = "poinsettia" <->
   extract_species_from_label label <> "basil" /\
   exists a b, lower label = a +:+ "poin" +:+ b).
Proof.
  rewrite <- !contains_iff. unfold extract_species_from_label.
  destruct (contains (lower label) "basil"), (contains (lower label) "bail"),
    (contains (lower label) "poin"); simpl; split; split;
    try tauto; try discriminate; intuition discriminate.
Qed.

(** C9: a label whose lower-cased form holds a basil keyword ("basil" or
    "bail") and also "poin" is a basil label, never a poinsettia one; the
    poinsettia answer is given only when no basil keyword is present. *)
Theorem basil_takes_precedence (label : string)
    (Hbasil : contains (lower label) "basil" = true \/
              contains (lower label) "bail" = true)
    (Hpoin : contains (lower label) "poin" = true) :
  extract_species_from_label label = "basil" /\
  extract_species_from_label label <> "poinsettia" /\
  (forall other : string,
     extract_species_from_label other = "poinsettia" ->
     contains (lower other) "basil" = false /\
     contains (lower other) "bail" = false /\
     contains (lower other) "poin" = true).
Proof.
  assert (Hb : extract_species_from_label label = "basil").
  { unfold extract_species_from_label.
    destruct Hbasil as [-> | ->]; [reflexivity|].
    now rewrite orb_true_r. }
  split; [exact Hb|]. split; [rewrite Hb; discriminate|].
  intros other. unfold extract_species_from_label.
  destruct (contains (lower other) "basil"), (contains (lower other) "bail");
    simpl; try discriminate.
  destruct (contains (lower other) "poin"); [tauto|discriminate].
Qed.

Lemma basil_takes_precedence_witness :
  extract_species_from_label "Basil_x_POINsettia" = "basil".
Proof.
  apply (basil_takes_precedence "Basil_x_POINsettia").
  - left; reflexivity.
  - reflexivity.
Defined.

(** The species names found in a list of labels, in detection order. *)
Lemma detect_loop_species i labels hd u :
  (detect_loop i labels hd u).2
  = u ∪ list_to_set (filter (fun sp => sp <> "unknown")
                       ((extract_species_from_label ∘ correct_label) <$> labels)).
Proof.
  revert i hd u; induction labels as [|l labels IH]; intros i hd u; simpl.
  - now rewrite union_empty_r_L.
  - rewrite IH. unfold compose at 2.
    destruct (String.eqb_spec (extract_species_from_label (correct_label l)) "unknown")
      as [Heq|Hne].
    + rewrite filter_cons_False by (intros H; now apply H). reflexivity.
    + rewrite filter_cons_True by exact Hne. simpl.
      rewrite (comm_L (∪) {[ _ ]} u). now rewrite (assoc_L (∪)).
Qed.

Lemma unique_species_perm labels labels' :
  labels ≡ₚ labels' -> unique_species labels = unique_species labels'.
Proof.
  intros Hperm. unfold unique_species. rewrite !detect_loop_species.
  f_equal. apply list_to_set_perm_L. now rewrite Hperm.
Qed.

Lemma elem_of_unique_species sp labels :
  sp ∈ unique_species labels <->
  sp <> "unknown" /\
  exists l, l ∈ labels /\ extract_species_from_label (correct_label l) = sp.
Proof.
  unfold unique_species. rewrite detect_loop_species.
  rewrite elem_of_union, elem_of_list_to_set, list_elem_of_filter, list_elem_of_fmap.
  split.
  - intros [H|[Hne (l & -> & Hl)]]; [now apply elem_of_empty in H|].
    split; [exact Hne|]. now exists l.
  - intros [Hne (l & Hl & <-)]. right. split; [exact Hne|]. now exists l.
Qed.

(** Assigning fresh keys one after the other lists the items in order. *)
Lemma dict_set_fresh {V} (d : list (string * V)) k v :
  k ∉ d.*1 -> dict_set d k v = d ++ [(k, v)].
Proof.
  induction d as [|[k' w] d IH]; simpl; intros Hk; [reflexivity|].
  destruct (String.eqb_spec k' k) as [->|Hne]; [exfalso; apply Hk; left|].
  rewrite IH; [reflexivity|]. intros Hin. apply Hk. now right.
Qed.

Lemma foldl_dict_set_fresh {V} (acc items : list (string * V)) :
  NoDup ((acc ++ items).*1) ->
  foldl (fun d kv => dict_set d kv.1 kv.2) acc items = acc ++ items.
Proof.
  revert acc; induction items as [|[k v] items IH]; intros acc Hnd; simpl.
  - now rewrite app_nil_r.
  - rewrite dict_set_fresh.
    + rewrite IH; rewrite <- app_assoc; [reflexivity|exact Hnd].
    + rewrite fmap_app in Hnd. apply NoDup_app in Hnd as (_ & Hdisj & _).
      intros Hin. apply (Hdisj k Hin). simpl. left.
Qed.

Lemma species_data_of_items u :
  species_data_of u
  = imap (fun idx species => (str_of_nat idx, VStr species)) (sorted (elements u)).
Proof.
  unfold species_data_of, dict_of_items.
  rewrite foldl_dict_set_fresh; [reflexivity|].
  simpl. rewrite fmap_imap.
  rewrite (imap_ext _ (fun idx _ => str_of_nat idx)) by reflexivity.
  rewrite imap_seq_0. apply NoDup_fmap_2; [|apply NoDup_seq].
  unfold str_of_nat. apply _.
Qed.

Lemma species_data_unfold labels :
  species_data labels = species_data_of (unique_species labels).
Proof.
  unfold species_data, detect_maps, unique_species.
  now destruct (detect_loop 0 labels [] ∅).
Qed.

(** C5: the species map is built from the species names of the labels
    (lower-cased substring match, "unknown" left out), collected in a set,
    sorted and numbered from 0, so it does not depend on the order of the
    labels. *)
Theorem species_map_order_independent (labels labels' : list string)
    (Hperm : labels ≡ₚ labels') :
  let names := sorted (elements (unique_species labels)) in
  species_data labels' = species_data labels /\
  species_data labels
    = imap (fun idx species => (str_of_nat idx, VStr species)) names /\
  Sorted String.le names /\ NoDup names /\
  (forall sp, sp ∈ names <->
     sp <> "unknown" /\
     exists l, l ∈ labels /\ extract_species_from_label (correct_label l) = sp) /\
  (forall sp, sp ∈ names -> sp = "basil" \/ sp = "poinsettia") /\
  (forall l1 l2, lower l1 = lower l2 ->
     extract_species_from_label l1 = extract_species_from_label l2) /\
  (forall l,
     (extract_species_from_label l = "basil" <->
      (exists a b, lower l = a +:+ "basil" +:+ b) \/
      (exists a b, lower l = a +:+ "bail" +:+ b)) /\
     (extract_species_from_label l = "poinsettia" <->
      extract_species_from_label l <> "basil" /\
      exists a b, lower l = a +:+ "poin" +:+ b)) /\
  (labels ≡ₚ ["basil_healthy"; "BASIL_unhealthy"; "poin_healthy"] ->
   species_data labels = [("0", VStr "basil"); ("1", VStr "poinsettia")]).
Proof.
  intros names.
  assert (Hmem : forall sp, sp ∈ names <->
     sp <> "unknown" /\
     exists l, l ∈ labels /\ extract_species_from_label (correct_label l) = sp).
  { intros sp. unfold names, sorted.
    rewrite merge_sort_Permutation, elem_of_elements.
    apply elem_of_unique_species. }
  split_and!.
  - rewrite !species_data_unfold. now rewrite (unique_species_perm _ _ Hperm).
  - rewrite species_data_unfold. apply species_data_of_items.
  - apply (Sorted_merge_sort String.le).
  - unfold names, sorted. rewrite merge_sort_Permutation. apply NoDup_elements.
  - exact Hmem.
  - intros sp Hsp. apply Hmem in Hsp as (Hne & l & _ & Hl).
    destruct (extract_species_cases (correct_label l)) as [H|[H|H]];
      rewrite H in Hl; subst sp; tauto.
  - intros l1 l2 Hl. unfold extract_species_from_label. now rewrite Hl.
  - exact extract_species_keywords.
  - intros Hex. rewrite species_data_unfold.
    rewrite (unique_species_perm _ _ Hex). vm_compute. reflexivity.
Qed.

Lemma species_map_order_independent_witness :
  Labels.species_data ["poin_healthy"; "basil_healthy"; "BASIL_unhealthy"]
  = Labels.species_data ["basil_healthy"; "BASIL_unhealthy"; "poin_healthy"].
Proof.
  refine (proj1 (species_map_order_independent
                   ["basil_healthy"; "BASIL_unhealthy"; "poin_healthy"]
                   ["poin_healthy"; "basil_healthy"; "BASIL_unhealthy"] _)).
  symmetry.
  apply (Permutation_cons_append ["basil_healthy"; "BASIL_unhealthy"] "poin_healthy").
Defined.

End SpeciesFacts.

(** ** The oneM2M client *)

Section ClientFacts.
Import Py IO Cse.

Lemma run_bind {W A B} (env : world W) (m : io A) (f : A -> io B) w :
  run env (bind m f) w =
  let '(a, w1, t1) := run env m w in
  let '(b, w2, t2) := run env (f a) w1 in
  (b, w2, t1 ++ t2).
Proof.
  revert w; induction m as [a|url hdrs t k IH|url hdrs p t k IH|fmt k IH|k IH];
    intros w; simpl.
  - now destruct (run env (f a) w) as [[b w2] t2].
  - destruct (requests_get env url hdrs t w) as [r w1]. rewrite IH.
    destruct (run env (k r) w1) as [[a w2] t1].
    now destruct (run env (f a) w2) as [[b w3] t2].
  - destruct (requests_post env url hdrs p t w) as [r w1]. rewrite IH.
    destruct (run env (k r) w1) as [[a w2] t1].
    now destruct (run env (f a) w2) as [[b w3] t2].
  - destruct (now_strftime env fmt w) as [s w1]. apply IH.
  - destruct (time_time env w) as [t w1]. apply IH.
Qed.

Lemma run_ret {W A} (env : world W) (a : A) (w : W) : run env (Ret a) w = (a, w, []).
Proof. reflexivity. Qed.

Lemma not_truthy_not_structured v : truthy v = false -> structured v = false.
Proof. destruct v as [| | | |l|[|kv d]]; simpl; congruence. Qed.

Variable json_loads : string -> option value.

(** The read is one GET; whatever comes back, a value is returned. *)
Lemma run_get_latest_cin_json {W} (env : world W) container_url origin w :
  run env (get_latest_cin_json json_loads container_url origin) w
  = let hdrs := [("X-M2M-Origin", origin); ("X-M2M-RVI", "2a");
                 ("Accept", "application/json")] in
    let got := requests_get env (container_url +:+ "/la") hdrs 5 w in
    (none_on_exception (latest_cin_of json_loads got.1), got.2,
     [EGet (container_url +:+ "/la") hdrs 5 got.1]).
Proof.
  unfold get_latest_cin_json. simpl.
  now destruct (requests_get env _ _ 5 w) as [got w1].
Qed.

Lemma latest_cin_raised e :
  none_on_exception (latest_cin_of json_loads (Raised e)) = VNone.
Proof. now destruct e. Qed.

Lemma latest_cin_not_200 r :
  status_code r <> 200%Z ->
  none_on_exception (latest_cin_of json_loads (Returned r)) = VNone.
Proof.
  intros Hne. unfold latest_cin_of, obind.
  apply Z.eqb_neq in Hne. rewrite Hne.
  now repeat case_match.
Qed.

Lemma none_on_exception_raised e : none_on_exception (Raised e) = VNone.
Proof. now destruct e. Qed.

(** A 200 answer, by the nested content field. *)
Lemma latest_cin_200 r :
  status_code r = 200%Z ->
  none_on_exception (latest_cin_of json_loads (Returned r))
  = match content_of r with
    | Some (VDict (kv :: d)) => VDict (kv :: d)
    | Some (VStr (String a s)) =>
        match json_loads (String a s) with
        | Some v => v
        | None => VNone
        end
    | _ => VNone
    end.
Proof.
  intros H200. unfold content_of, latest_cin_of. cbn [obind].
  rewrite H200. cbn [Z.eqb Pos.eqb].
  destruct (json r) as [body|e]; simpl; [|apply none_on_exception_raised].
  destruct body as [| | | |l|body]; try reflexivity. simpl.
  destruct (dict_get body "m2m:cin") as [cin|]; [|reflexivity]. simpl.
  destruct cin as [| | | |l|cin]; try reflexivity. simpl.
  destruct (dict_get cin "con") as [con|]; [|reflexivity]. simpl.
  destruct con as [|b|n|s|l|d]; simpl; try reflexivity.
  - now destruct b.
  - now destruct (n =? 0)%Z.
  - destruct s as [|a s]; [reflexivity|]. simpl.
    now destruct (json_loads (String a s)).
  - now destruct l.
  - now destruct d.
Qed.

End ClientFacts.

(** C7: [get_latest_cin_json] returns a value for every answer to its GET
    and never raises.  A raised request (timeout or other), a status other
    than 200 (403, 404, ...) and a 200 answer without usable content give
    [None]; a 200 answer whose content field is a non-empty dict gives that
    dict, and one whose content field is text gives the decoded text, so a
    dict and its JSON encoding give the same result. *)
Theorem config_read_result
    (json_loads : string -> option Py.value) {W : Type} (env : IO.world W)
    (container_url origin : string) (w : W) :
  let hdrs := [("X-M2M-Origin", origin); ("X-M2M-RVI", "2a");
               ("Accept", "application/json")] in
  let got := (IO.requests_get env (container_url +:+ "/la") hdrs 5 w).1 in
  let result :=
    (IO.run env (Cse.get_latest_cin_json json_loads container_url origin) w).1.1 in
  (forall e, got = Py.Raised e -> result = Py.VNone) /\
  (forall r, got = Py.Returned r -> IO.status_code r <> 200%Z -> result = Py.VNone) /\
  (forall r, got = Py.Returned r -> IO.status_code r = 200%Z ->
     match Cse.content_of r with
     | Some (Py.VDict (kv :: d)) => result = Py.VDict (kv :: d)
     | Some (Py.VStr (String a s)) =>
         result = match json_loads (String a s) with
                  | Some v => v
                  | None => Py.VNone
                  end
     | _ => result = Py.VNone
     end) /\
  (forall r d s, got = Py.Returned r -> IO.status_code r = 200%Z -> d <> [] ->
     json_loads s = Some (Py.VDict d) -> s <> "" ->
     Cse.content_of r = Some (Py.VDict d) \/ Cse.content_of r = Some (Py.VStr s) ->
     result = Py.VDict d) /\
  (result <> Py.VNone ->
   exists r, got = Py.Returned r /\ IO.status_code r = 200%Z /\
     ((exists kv d, Cse.content_of r = Some (Py.VDict (kv :: d)) /\
                    result = Py.VDict (kv :: d)) \/
      (exists s, Cse.content_of r = Some (Py.VStr s) /\ s <> "" /\
                 json_loads s = Some result))).
Proof.
  intros hdrs got result.
  assert (Hres : result = Cse.none_on_exception (Cse.latest_cin_of json_loads got)).
  { unfold result. now rewrite run_get_latest_cin_json. }
  assert (H200 : forall r, got = Py.Returned r -> IO.status_code r = 200%Z ->
     match Cse.content_of r with
     | Some (Py.VDict (kv :: d)) => result = Py.VDict (kv :: d)
     | Some (Py.VStr (String a s)) =>
         result = match json_loads (String a s) with
                  | Some v => v
                  | None => Py.VNone
                  end
     | _ => result = Py.VNone
     end).
  { intros r Hgot Hst. rewrite Hres, Hgot, (latest_cin_200 json_loads r Hst).
    destruct (Cse.content_of r) as [[| | |[|a s]|l|[|kv d]]|]; reflexivity. }
  split_and!.
  - intros e He. rewrite Hres, He. apply latest_cin_raised.
  - intros r Hr Hne. rewrite Hres, Hr. now apply latest_cin_not_200.
  - exact H200.
  - intros r d s Hgot Hst Hd Hs Hne [Hc|Hc]; specialize (H200 r Hgot Hst);
      rewrite Hc in H200.
    + destruct d; [contradiction|exact H200].
    + destruct s as [|a s]; [contradiction|]. now rewrite Hs in H200.
  - intros Hnone. destruct got as [r|e] eqn:Hgot.
    + destruct (Z.eq_dec (IO.status_code r) 200) as [Hst|Hst].
      * exists r. split; [reflexivity|]. split; [exact Hst|].
        specialize (H200 r eq_refl Hst).
        destruct (Cse.content_of r) as [[| | |[|a s]|l|[|kv d]]|];
          try contradiction.
        -- right. exists (String a s). split; [reflexivity|]. split; [discriminate|].
           destruct (json_loads (String a s)); [now subst|contradiction].
        -- left. now exists kv, d.
      * exfalso. apply Hnone. rewrite Hres. now apply latest_cin_not_200.
    + exfalso. apply Hnone. rewrite Hres. apply latest_cin_raised.
Qed.

Lemma config_read_result_witness :
  (IO.run Examples.provisioned
     (Cse.get_latest_cin_json Examples.loads
        "http://YOUR_SERVER_IP:3000/TinyIoT/modelRepo/mlModel-health"
        Cse.RASPI_ORIGIN) []).1.1
  = Py.VDict Examples.ML_MODEL_HEALTH_DATA.
Proof.
  pose proof (config_read_result Examples.loads Examples.provisioned
                "http://YOUR_SERVER_IP:3000/TinyIoT/modelRepo/mlModel-health"
                Cse.RASPI_ORIGIN []) as (_ & _ & H200 & _).
  specialize (H200 _ eq_refl eq_refl).
  exact H200.
Defined.

(** C10: a 200 answer whose content field is there but falsy (the empty
    string, the empty object, null) makes the read return [None], as a 404
    does: the read gave nothing structured. *)
Theorem empty_content_is_failure
    (json_loads : string -> option Py.value) {W : Type} (env : IO.world W)
    (container_url origin : string) (w : W) (r : IO.response) (con : Py.value)
    (Hgot : (IO.requests_get env (container_url +:+ "/la")
               [("X-M2M-Origin", origin); ("X-M2M-RVI", "2a");
                ("Accept", "application/json")] 5 w).1 = Py.Returned r)
    (H200 : IO.status_code r = 200%Z)
    (Hcon : Cse.content_of r = Some con)
    (Hfalsy : con = Py.VStr "" \/ con = Py.VDict [] \/ con = Py.VNone) :
  let result :=
    (IO.run env (Cse.get_latest_cin_json json_loads container_url origin) w).1.1 in
  result = Py.VNone /\
  Cse.structured result = false /\
  (forall missing, IO.status_code missing = 404%Z ->
     result = Cse.none_on_exception
                (Cse.latest_cin_of json_loads (Py.Returned missing))).
Proof.
  intros result.
  assert (Hres : result = Py.VNone).
  { unfold result. rewrite run_get_latest_cin_json. simpl. rewrite Hgot.
    rewrite (latest_cin_200 json_loads r H200), Hcon.
    now destruct Hfalsy as [->|[->| ->]]. }
  split_and!; [exact Hres|now rewrite Hres|].
  intros missing H404. rewrite Hres. symmetry.
  apply latest_cin_not_200. rewrite H404. discriminate.
Qed.

Lemma empty_content_is_failure_witness :
  Cse.content_of
    {| IO.status_code := 200;
       IO.json := Py.Returned
         (Py.VDict [("m2m:cin", Py.VDict [("con", Py.VStr "")])]) |}
  = Some (Py.VStr "") /\
  (IO.run Examples.empty_records
     (Cse.get_latest_cin_json Examples.loads Cse.deploy_health_url Cse.RASPI_ORIGIN)
     tt).1.1 = Py.VNone.
Proof.
  split; [reflexivity|].
  refine (proj1 (empty_content_is_failure Examples.loads Examples.empty_records
                   Cse.deploy_health_url Cse.RASPI_ORIGIN tt
                   {| IO.status_code := 200;
                      IO.json := Py.Returned
                        (Py.VDict [("m2m:cin", Py.VDict [("con", Py.VStr "")])]) |}
                   (Py.VStr "") _ _ _ _)).
  - reflexivity.
  - reflexivity.
  - reflexivity.
  - left; reflexivity.
Defined.

(** ** Config resolution *)

Section ResolutionFacts.
Import Py IO Cse.
Variable json_loads : string -> option value.
Variable py_repr : value -> string.
Context {W : Type} (env : world W).

Let read (url : string) (w : W) : value * W * list event :=
  run env (get_latest_cin_json json_loads url RASPI_ORIGIN) w.

(** The resolution in terms of its four reads. *)
Lemma load_config_result w :
  let '(v1, w1, t1) := read deploy_species_url w in
  let '(v2, w2, t2) := read deploy_health_url w1 in
  let '(v3, w3, t3) := read (model_url py_repr v1) w2 in
  let '(v4, w4, t4) := read (model_url py_repr v2) w3 in
  (run env (_load_config_from_cse json_loads py_repr) w).1.1
  = if structured v1 && structured v2 && structured v3 && structured v4
    then Some (config_of py_repr v1 v2 v3 v4) else None.
Proof.
  destruct (read deploy_species_url w) as [[v1 w1] t1] eqn:E1.
  destruct (read deploy_health_url w1) as [[v2 w2] t2] eqn:E2.
  destruct (read (model_url py_repr v1) w2) as [[v3 w3] t3] eqn:E3.
  destruct (read (model_url py_repr v2) w3) as [[v4 w4] t4] eqn:E4.
  unfold _load_config_from_cse, load_config_try.
  rewrite !run_bind.
  change (run env (get_latest_cin_json json_loads _ RASPI_ORIGIN) w)
    with (read deploy_species_url w).
  rewrite E1.
  destruct (truthy v1) eqn:T1; simpl negb; cbv iota;
    [|rewrite run_ret, (not_truthy_not_structured v1 T1); reflexivity].
  rewrite !run_bind.
  change (run env (get_latest_cin_json json_loads _ RASPI_ORIGIN) w1)
    with (read deploy_health_url w1).
  rewrite E2.
  destruct (truthy v2) eqn:T2; simpl negb; cbv iota;
    [|rewrite run_ret, (not_truthy_not_structured v2 T2), andb_false_r; reflexivity].
  destruct v1 as [| | | |l1|d1]; try reflexivity.
  destruct v2 as [| | | |l2|d2];
    try (destruct d1; [discriminate T1|reflexivity]).
  unfold try_bind. cbn [bind py_get].
  rewrite !run_bind.
  change (run env (get_latest_cin_json json_loads _ RASPI_ORIGIN) w2)
    with (read (model_url py_repr (VDict d1)) w2).
  rewrite E3.
  rewrite !run_bind.
  change (run env (get_latest_cin_json json_loads _ RASPI_ORIGIN) w3)
    with (read (model_url py_repr (VDict d2)) w3).
  rewrite E4.
  destruct d1 as [|kv1 d1]; [discriminate T1|].
  destruct d2 as [|kv2 d2]; [discriminate T2|].
  destruct (truthy v3) eqn:T3; simpl negb; cbv iota;
    [|rewrite (not_truthy_not_structured v3 T3), andb_false_r; reflexivity].
  destruct (truthy v4) eqn:T4; simpl negb; cbv iota;
    [|rewrite (not_truthy_not_structured v4 T4), andb_false_r; reflexivity].
  destruct v3 as [| | | |l3|[|kv3 d3]]; try discriminate T3; try reflexivity.
  destruct v4 as [| | | |l4|[|kv4 d4]]; try discriminate T4; reflexivity.
Qed.

End ResolutionFacts.

(** C3: with the four reads of a resolution taken in order (species
    deployment, health deployment, species model, health model), the
    resolution fails as soon as one of them gave nothing structured, the
    health model read in particular whatever the species track gave; and a
    config, when there is one, is built from four structured reads and has
    every field of both tracks. *)
Theorem config_resolution_fails_closed
    (json_loads : string -> option Py.value) (py_repr : Py.value -> string)
    {W : Type} (env : IO.world W) (w : W) :
  let read url w :=
    IO.run env (Cse.get_latest_cin_json json_loads url Cse.RASPI_ORIGIN) w in
  let '(v1, w1, _) := read Cse.deploy_species_url w in
  let '(v2, w2, _) := read Cse.deploy_health_url w1 in
  let '(v3, w3, _) := read (Cse.model_url py_repr v1) w2 in
  let '(v4, _, _) := read (Cse.model_url py_repr v2) w3 in
  let result := (IO.run env (Cse._load_config_from_cse json_loads py_repr) w).1.1 in
  (Cse.structured v1 = false \/ Cse.structured v2 = false \/
   Cse.structured v3 = false \/ Cse.structured v4 = false -> result = None) /\
  (Cse.structured v4 = false -> result = None) /\
  (forall c, result = Some c ->
     Cse.structured v1 = true /\ Cse.structured v2 = true /\
     Cse.structured v3 = true /\ Cse.structured v4 = true /\
     c = {| Cse.model_species_path := Cse.field v3 "mlModelPath";
            Cse.model_health_path := Cse.field v4 "mlModelPath";
            Cse.output_species := Cse.field v1 "outputResource";
            Cse.output_health := Cse.field v2 "outputResource";
            Cse.url_species :=
              Cse.TINYIOT_URL +:+ Cse.py_format py_repr (Cse.field v1 "outputResource");
            Cse.url_health :=
              Cse.TINYIOT_URL +:+ Cse.py_format py_repr (Cse.field v2 "outputResource");
         |}) /\
  (Cse.structured v1 && Cse.structured v2 && Cse.structured v3 && Cse.structured v4
   = true -> exists c, result = Some c).
Proof.
  intros read.
  pose proof (load_config_result json_loads py_repr env w) as Hres.
  cbv beta in Hres. subst read. cbv beta. revert Hres.
  destruct (IO.run env (Cse.get_latest_cin_json json_loads Cse.deploy_species_url _) w)
    as [[v1 w1] t1].
  destruct (IO.run env (Cse.get_latest_cin_json json_loads Cse.deploy_health_url _) w1)
    as [[v2 w2] t2].
  destruct (IO.run env (Cse.get_latest_cin_json json_loads (Cse.model_url py_repr v1) _) w2)
    as [[v3 w3] t3].
  destruct (IO.run env (Cse.get_latest_cin_json json_loads (Cse.model_url py_repr v2) _) w3)
    as [[v4 w4] t4].
  intros Hres result. fold result in Hres.
  split_and!.
  - intros Hfail. rewrite Hres.
    destruct Hfail as [H|[H|[H|H]]]; rewrite H, ?andb_false_r; reflexivity.
  - intros H. rewrite Hres, H, andb_false_r. reflexivity.
  - intros c Hc. rewrite Hres in Hc.
    destruct (Cse.structured v1), (Cse.structured v2), (Cse.structured v3),
      (Cse.structured v4); try discriminate.
    injection Hc as <-. now split_and!.
  - intros H. rewrite Hres, H. now eexists.
Qed.

Lemma config_resolution_fails_closed_witness :
  (IO.run Examples.health_model_missing
     (Cse._load_config_from_cse Examples.loads Examples.repr) []).1.1
  = None.
Proof.
  pose proof (config_resolution_fails_closed Examples.loads Examples.repr
                Examples.health_model_missing []) as H.
  vm_compute in H. destruct H as (_ & Hhealth & _).
  exact (Hhealth eq_refl).
Defined.

(** ** Upload *)

Section UploadFacts.
Import Py IO Cse.
Variable json_dumps : value -> string.
Variable str_float : Q -> string.
Context {W : Type} (env : world W).

(** One run of the upload: the result and the POSTs made, by which of the
    two maps are empty. *)
Lemma send_to_tinyiot_run cfg species_data health_data w :
  let timestamp := (now_strftime env "%Y-%m-%d %H:%M:%S" w).1 in
  let body data := cin_payload (json_dumps (with_timestamp timestamp data)) in
  let '(ok, _, tr) :=
    run env (_send_to_tinyiot json_dumps str_float cfg species_data health_data) w in
  exists rs rh,
    posts tr
    = (if truthy (VDict species_data)
       then [(url_species cfg, body species_data, rs)] else [])
      ++ (if truthy (VDict health_data)
          then [(url_health cfg, body health_data, rh)] else []) /\
    ok = (if truthy (VDict species_data) then track_success true rs else true)
         && (if truthy (VDict health_data) then track_success true rh else true).
Proof.
  unfold _send_to_tinyiot. cbn [bind run].
  destruct (now_strftime env _ w) as [timestamp w1]. cbn [fst].
  destruct (time_time env w1) as [now w2].
  destruct species_data as [|kv1 species_data], health_data as [|kv2 health_data];
    cbn [truthy bind run].
  - exists (Raised Timeout), (Raised Timeout). now split.
  - destruct (time_time env w2) as [later w3].
    destruct (requests_post env _ _ _ 10 w3) as [rh w4].
    exists (Raised Timeout), rh. now split.
  - destruct (requests_post env _ _ _ 10 w2) as [rs w3].
    exists rs, (Raised Timeout). split; [reflexivity|].
    now rewrite andb_true_r.
  - destruct (requests_post env _ _ _ 10 w2) as [rs w3].
    destruct (time_time env w3) as [later w4].
    destruct (requests_post env _ _ _ 10 w4) as [rh w5].
    exists rs, rh. split; [reflexivity|].
    unfold track_success.
    destruct rs as [rs|e], rh as [rh|e']; simpl;
      repeat case_match; reflexivity.
Qed.

Lemma track_success_created r : track_success true r = created r.
Proof. destruct r as [r|e]; simpl; [now destruct (_ =? 201)%Z|reflexivity]. Qed.

End UploadFacts.

(** C1, as the code has it: for each non-empty map the upload POSTs, to the
    output resource of its track, a body whose [m2m:cin] has the constant
    text "data" as content ([con]) and carries the serialized envelope
    ([timestamp] and [data]) as the single label ([lbl]). *)
Theorem upload_body_carries_envelope_as_label
    (json_dumps : Py.value -> string) (str_float : Q -> string)
    {W : Type} (env : IO.world W) (cfg : Cse.config)
    (species_data health_data : Py.pydict) (w : W) :
  let timestamp := (IO.now_strftime env "%Y-%m-%d %H:%M:%S" w).1 in
  let body data := Cse.cin_payload (json_dumps (Cse.with_timestamp timestamp data)) in
  let tr :=
    (IO.run env
       (Cse._send_to_tinyiot json_dumps str_float cfg species_data health_data) w).2 in
  (fun p => p.1) <$> Cse.posts tr
  = (if Py.truthy (Py.VDict species_data)
     then [(Cse.url_species cfg, body species_data)] else [])
    ++ (if Py.truthy (Py.VDict health_data)
        then [(Cse.url_health cfg, body health_data)] else []) /\
  (forall data,
     Cse.cin_field (body data) "con" = Some (Py.VStr "data") /\
     Cse.cin_field (body data) "lbl"
     = Some (Py.VList [Py.VStr (json_dumps (Cse.with_timestamp timestamp data))])).
Proof.
  intros timestamp body tr. split; [|now intros data].
  pose proof (send_to_tinyiot_run json_dumps str_float env cfg
                species_data health_data w) as Hrun.
  cbv zeta in Hrun. fold timestamp in Hrun. unfold tr.
  destruct (IO.run env _ w) as [[ok w'] tr'].
  destruct Hrun as (rs & rh & Hposts & _). cbn [snd]. rewrite Hposts.
  now destruct (Py.truthy (Py.VDict species_data)),
               (Py.truthy (Py.VDict health_data)).
Qed.

(** C1 as stated fails: on the provisioned server, the upload of the
    species map [{"0": "basil"}] POSTs one body, and its content field is
    not the serialized envelope. *)
Lemma upload_content_is_not_envelope :
  exists url body r,
    Cse.posts
      (IO.run Examples.provisioned
         (Cse._send_to_tinyiot Examples.dumps Examples.str_seconds
            Examples.config_of_provisioned [("0", Py.VStr "basil")] []) []).2
    = [(url, body, r)] /\
    Cse.cin_field body "con"
    <> Some (Py.VStr (Examples.dumps
               (Cse.with_timestamp "2024-05-01 09:00:00" [("0", Py.VStr "basil")]))).
Proof.
  eexists _, _, _. split; [vm_compute; reflexivity|].
  vm_compute. discriminate.
Qed.

(** C2: the upload returns true exactly when every POST it made was
    answered 201; it POSTs once per non-empty map, species first, and the
    health POST is made whatever the species POST gave; an empty map gives
    no POST.  With 201 for species and 500 for health the result is false
    and the one record created is the species one. *)
Theorem upload_result_per_track
    (json_dumps : Py.value -> string) (str_float : Q -> string)
    {W : Type} (env : IO.world W) (cfg : Cse.config)
    (species_data health_data : Py.pydict) (w : W) :
  let '(ok, _, tr) :=
    IO.run env
      (Cse._send_to_tinyiot json_dumps str_float cfg species_data health_data) w in
  (fun p => p.1.1) <$> Cse.posts tr
  = (if Py.truthy (Py.VDict species_data) then [Cse.url_species cfg] else [])
    ++ (if Py.truthy (Py.VDict health_data) then [Cse.url_health cfg] else []) /\
  (ok = true <-> Forall (fun p => Cse.created p.2 = true) (Cse.posts tr)) /\
  (forall u1 b1 r1 u2 b2 r2,
     Cse.posts tr = [(u1, b1, Py.Returned r1); (u2, b2, Py.Returned r2)] ->
     IO.status_code r1 = 201%Z -> IO.status_code r2 = 500%Z ->
     ok = false /\ u1 = Cse.url_species cfg /\ u2 = Cse.url_health cfg /\
     Cse.created_records tr = [(u1, b1)]).
Proof.
  pose proof (send_to_tinyiot_run json_dumps str_float env cfg
                species_data health_data w) as Hrun.
  cbv zeta in Hrun.
  destruct (IO.run env _ w) as [[ok w'] tr].
  destruct Hrun as (rs & rh & Hposts & Hok).
  rewrite !track_success_created in Hok.
  split_and!.
  - rewrite Hposts.
    now destruct (Py.truthy (Py.VDict species_data)),
                 (Py.truthy (Py.VDict health_data)).
  - rewrite Hposts, Hok.
    destruct (Py.truthy (Py.VDict species_data)),
             (Py.truthy (Py.VDict health_data)); simpl;
      rewrite ?Forall_cons, ?Forall_nil, ?andb_true_iff; simpl; tauto.
  - intros u1 b1 r1 u2 b2 r2 Htr H201 H500.
    unfold Cse.created_records. rewrite Htr. rewrite Htr in Hposts.
    destruct (Py.truthy (Py.VDict species_data)),
             (Py.truthy (Py.VDict health_data)); try discriminate Hposts.
    injection Hposts as -> _ <- -> _ <-.
    rewrite Hok. simpl. rewrite H201, H500. simpl.
    split_and!; try reflexivity.
    rewrite filter_cons_True by (simpl; now rewrite H201).
    rewrite filter_cons_False by (simpl; rewrite H500; discriminate).
    reflexivity.
Qed.

Lemma upload_result_per_track_witness :
  let '(ok, _, tr) :=
    IO.run Examples.health_down
      (Cse._send_to_tinyiot Examples.dumps Examples.str_seconds
         Examples.config_of_provisioned
         [("0", Py.VStr "basil")] [("0", Py.VStr "healthy_basil")]) [] in
  ok = false /\ List.length (Cse.created_records tr) = 1.
Proof.
  pose proof (upload_result_per_track Examples.dumps Examples.str_seconds
                Examples.health_down Examples.config_of_provisioned
                [("0", Py.VStr "basil")] [("0", Py.VStr "healthy_basil")] [])
    as H.
  destruct (IO.run Examples.health_down _ []) as [[ok w'] tr] eqn:Hrun.
  destruct H as (_ & _ & H).
  vm_compute in Hrun. injection Hrun as <- _ <-.
  edestruct H as (Hok & _ & _ & Hrec);
    [reflexivity|reflexivity|reflexivity|].
  split; [exact Hok|]. now rewrite Hrec.
Defined.

(** ** Scheduler *)

Section SchedulerFacts.
Import Scheduler.
Variable target_hours : list Z.

Lemma tick_same_hour h st :
  h = last_detection_hour st -> tick target_hours h st = st.
Proof.
  intros ->. unfold tick. rewrite Z.eqb_refl. simpl.
  now rewrite andb_false_r.
Qed.

Lemma ticks_same_hour n st :
  ticks target_hours (replicate n (last_detection_hour st)) st = st.
Proof.
  induction n as [|n IH]; [reflexivity|].
  unfold ticks in *. simpl. now rewrite tick_same_hour.
Qed.

Lemma tick_cases h st :
  (h ∈ target_hours /\ h <> last_detection_hour st /\
   tick target_hours h st
   = {| last_detection_hour := h; cycles := cycles st ++ [h] |}) \/
  ((h ∉ target_hours) /\ h <> last_detection_hour st /\
   tick target_hours h st
   = {| last_detection_hour := -1; cycles := cycles st |}) \/
  (h = last_detection_hour st /\ tick target_hours h st = st).
Proof.
  destruct (Z.eqb_spec h (last_detection_hour st)) as [Heq|Hne].
  - right; right. split; [exact Heq|now apply tick_same_hour].
  - unfold tick. destruct (Z.eqb_spec h (last_detection_hour st)); [contradiction|].
    destruct (bool_decide_reflect (h ∈ target_hours)); simpl; tauto.
Qed.

(** While the hour stays [h], at most one call of [detect] is made. *)
Lemma ticks_constant_hour n h st :
  exists fired,
    cycles (ticks target_hours (replicate n h) st) = cycles st ++ fired /\
    (fired = [] \/ fired = [h]).
Proof.
  revert st; induction n as [|n IH]; intros st.
  - exists []. split; [now rewrite app_nil_r|now left].
  - change (ticks target_hours (replicate (S n) h) st)
      with (ticks target_hours (replicate n h) (tick target_hours h st)).
    destruct (tick_cases h st) as [(_ & _ & Hfire)|[(_ & _ & Hreset)|(_ & Hstay)]].
    + exists [h]. split; [|now right].
      rewrite Hfire.
      change h with (last_detection_hour
        {| last_detection_hour := h; cycles := cycles st ++ [h] |}) at 1.
      now rewrite ticks_same_hour.
    + destruct (IH (tick target_hours h st)) as (fired & Hc & Hf).
      exists fired. split; [|exact Hf]. rewrite Hc, Hreset. reflexivity.
    + rewrite Hstay. apply IH.
Qed.

End SchedulerFacts.

(** C4: one poll with current hour [h].  A target hour other than the last
    fired one runs one detection cycle and becomes the last fired hour; any
    other hour that differs from the last fired one resets it to -1; and
    over any run of polls during which the hour stays [h], at most one
    cycle fires. *)
Theorem scheduler_fires_once_per_hour
    (target_hours : list Z) (h : Z) (st : Scheduler.state) (n : nat) :
  (h ∈ target_hours /\ h <> Scheduler.last_detection_hour st ->
   Scheduler.tick target_hours h st
   = {| Scheduler.last_detection_hour := h;
        Scheduler.cycles := Scheduler.cycles st ++ [h] |}) /\
  (~ (h ∈ target_hours /\ h <> Scheduler.last_detection_hour st) ->
   h <> Scheduler.last_detection_hour st ->
   Scheduler.tick target_hours h st
   = {| Scheduler.last_detection_hour := -1;
        Scheduler.cycles := Scheduler.cycles st |}) /\
  (h = Scheduler.last_detection_hour st ->
   Scheduler.tick target_hours h st = st) /\
  (exists fired,
     Scheduler.cycles (Scheduler.ticks target_hours (replicate n h) st)
     = Scheduler.cycles st ++ fired /\
     (fired = [] \/ fired = [h])).
Proof.
  split_and!.
  - intros [Hin Hne].
    destruct (tick_cases target_hours h st)
      as [(_ & _ & H)|[(Hnot & _)|(Heq & _)]]; [exact H|contradiction..].
  - intros Hnot Hne.
    destruct (tick_cases target_hours h st)
      as [(Hin & _)|[(_ & _ & H)|(Heq & _)]]; [tauto|exact H|contradiction].
  - apply tick_same_hour.
  - apply ticks_constant_hour.
Qed.

Lemma scheduler_fires_once_per_hour_witness :
  Scheduler.tick Scheduler.TARGET_HOURS 9 Scheduler.initial
  = {| Scheduler.last_detection_hour := 9; Scheduler.cycles := [9%Z] |}.
Proof.
  refine (proj1 (scheduler_fires_once_per_hour
                   Scheduler.TARGET_HOURS 9 Scheduler.initial 3) _).
  split; [|discriminate].
  unfold Scheduler.TARGET_HOURS. apply elem_of_seqZ. lia.
Defined.

Example scheduler_day :
  Scheduler.cycles
    (Scheduler.ticks Scheduler.TARGET_HOURS [9; 9; 9; 10; 10; 9]%Z Scheduler.initial)
  = [9; 10; 9]%Z.
Proof. reflexivity. Qed.

Example scheduler_rearm :
  Scheduler.cycles (Scheduler.ticks [9]%Z [9; 9; 10; 10; 9; 9]%Z Scheduler.initial)
  = [9; 9]%Z.
Proof. reflexivity. Qed.

(** ** Frame buffer *)

Section StreamFacts.
Import Stream.

Lemma inv_initial : inv initial.
Proof.
  split; simpl.
  - discriminate.
  - lia.
  - intros v vw H. now rewrite lookup_empty in H.
  - constructor.
Qed.

Lemma inv_step a st st' : inv st -> step a st = Some st' -> inv st'.
Proof.
  intros [Htag Hsome Hvs Hlog] Hstep.
  destruct a as [buf|v|v|v|v]; simpl in Hstep.
  - injection Hstep as <-. split; simpl.
    + now intros n b [= <- _].
    + intros _. eexists; reflexivity.
    + intros v vw. rewrite lookup_fmap.
      destruct (viewers st !! v) as [vw0|] eqn:Hv; [|discriminate].
      intros [= <-]. destruct (Hvs v vw0 Hv) as [Hc Hpc].
      unfold notify, viewer_ok in *. destruct (at_pc vw0) eqn:Hpc0; simpl;
        try rewrite Hpc0; lia.
    + exact Hlog.
  - destruct (viewers st !! v) eqn:Hv; [discriminate|].
    injection Hstep as <-. split; simpl; try assumption.
    intros v' vw. rewrite lookup_insert_Some.
    intros [[_ <-]|[_ H]]; [split; simpl; [lia|exact I]|now apply (Hvs v')].
  - destruct (viewers st !! v) as [[c [|since|since]]|] eqn:Hv; try discriminate.
    injection Hstep as <-. split; simpl; try assumption.
    intros v' vw. rewrite lookup_insert_Some.
    intros [[_ <-]|[_ H]]; [|now apply (Hvs v')].
    destruct (Hvs v _ Hv) as [Hc _]. split; simpl in *; lia.
  - destruct (viewers st !! v) as [[c [|since|since]]|] eqn:Hv; try discriminate.
    injection Hstep as <-. destruct (Hvs v _ Hv) as [Hc [Hcs Hsw]]. simpl in *.
    split; simpl; try assumption.
    + intros v' vw. rewrite lookup_insert_Some.
      intros [[_ <-]|[_ H]]; [split; simpl; [lia|exact I]|now apply (Hvs v')].
    + apply Forall_app. split; [exact Hlog|]. constructor; [|constructor].
      destruct Hsome as [[n buf] Hf]; [lia|].
      exists buf. simpl. rewrite Hf, (Htag n buf Hf). split; [reflexivity|lia].
  - destruct (viewers st !! v) eqn:Hv; [|discriminate].
    injection Hstep as <-. split; simpl; try assumption.
    intros v' vw. rewrite lookup_delete_Some. intros [_ H]. now apply (Hvs v').
Qed.

Lemma inv_exec acts st st' : inv st -> exec acts st = Some st' -> inv st'.
Proof.
  revert st; induction acts as [|a acts IH]; intros st Hinv; simpl.
  - now intros [= <-].
  - destruct (step a st) as [st1|] eqn:Hstep; [|discriminate].
    apply IH. now apply (inv_step a st).
Qed.

End StreamFacts.

(** C8, as the code has it: in every schedule of writes, connections, waits
    and wake-ups, each frame handed to a viewer is the newest one at the
    moment the viewer wakes up, and it was written after the viewer began
    the wait (hence after it connected): never an empty buffer, never a
    frame that existed before the wait.  A viewer that connected after
    frame N only sees frames N+1 and later. *)
Theorem viewer_sees_only_later_frames
    (acts : list Stream.action) (st : Stream.state) (d : Stream.delivery)
    (Hexec : Stream.exec acts Stream.initial = Some st)
    (Hd : d ∈ Stream.log st) :
  exists buf,
    Stream.seen d = Some (Stream.read_at d, buf) /\
    Stream.since_connect d <= Stream.since_wait d /\
    Stream.since_wait d < Stream.read_at d.
Proof.
  pose proof (inv_exec acts _ _ inv_initial Hexec) as [_ _ _ Hlog].
  rewrite Forall_forall in Hlog. exact (Hlog d Hd).
Qed.

Lemma viewer_sees_only_later_frames_witness :
  exists st d,
    Stream.exec [Stream.Connect 0; Stream.Wait 0; Stream.WriteFrame [Byte.x01];
                 Stream.Wake 0] Stream.initial = Some st /\
    d ∈ Stream.log st /\
    Stream.seen d = Some (1, [Byte.x01]) /\
    Stream.since_wait d < Stream.read_at d.
Proof.
  destruct (Stream.exec [Stream.Connect 0; Stream.Wait 0; Stream.WriteFrame [Byte.x01];
                          Stream.Wake 0] Stream.initial) as [st|] eqn:Hexec;
    [|vm_compute in Hexec; discriminate Hexec].
  exists st, {| Stream.who := 0; Stream.since_connect := 0; Stream.since_wait := 0;
                Stream.read_at := 1; Stream.seen := Some (1, [Byte.x01]) |}.
  assert (Hd : {| Stream.who := 0; Stream.since_connect := 0; Stream.since_wait := 0;
                  Stream.read_at := 1; Stream.seen := Some (1, [Byte.x01]) |}
               ∈ Stream.log st).
  { pose proof Hexec as Hst. vm_compute in Hst. injection Hst as <-.
    simpl. constructor. }
  split; [reflexivity|]. split; [exact Hd|].
  destruct (viewer_sees_only_later_frames _ _ _ Hexec Hd) as (buf & Hseen & _ & Hlt).
  split; [reflexivity|exact Hlt].
Defined.

(** C8 as stated fails: viewer 0 connects and waits before any frame
    exists, two frames are written before it takes the lock again, and the
    frame it receives is the second one, not the first frame written after
    it connected. *)
Lemma viewer_can_miss_first_frame :
  exists st d,
    Stream.exec [Stream.Connect 0; Stream.Wait 0; Stream.WriteFrame [Byte.x01];
                 Stream.WriteFrame [Byte.x02]; Stream.Wake 0] Stream.initial = Some st /\
    Stream.log st = [d] /\
    Stream.since_connect d = 0 /\
    Stream.seen d = Some (2, [Byte.x02]) /\
    ~ Stream.first_after_connect d.
Proof.
  eexists _, _. split; [reflexivity|]. split; [reflexivity|].
  split; [reflexivity|]. split; [reflexivity|].
  intros [buf Hbuf]. discriminate Hbuf.
Qed.

Example species_example :
  Labels.species_data ["basil_healthy"; "BASIL_unhealthy"; "poin_healthy"]
  = [("0", Py.VStr "basil"); ("1", Py.VStr "poinsettia")].
Proof. vm_compute. reflexivity. Qed.

Example health_example :
  Labels.health_data ["basil_healthy"; "healthy_poinsenttia"]
  = [("0", Py.VStr "basil_healthy"); ("1", Py.VStr "healthy_poinsettia")].
Proof. vm_compute. reflexivity. Qed.

Example dumps_envelope :
  Examples.dumps (Cse.with_timestamp "2024-05-01 09:00:00" [("0", Py.VStr "basil")])
  = "{" +:+ Examples.quote "timestamp" +:+ ": " +:+ Examples.quote "2024-05-01 09:00:00"
    +:+ ", " +:+ Examples.quote "data" +:+ ": {" +:+ Examples.quote "0" +:+ ": "
    +:+ Examples.quote "basil" +:+ "}}".
Proof. vm_compute. reflexivity. Qed.

Example load_config_provisioned :
  (IO.run Examples.provisioned
     (Cse._load_config_from_cse Examples.loads Examples.repr) []).1.1
  = Some Examples.config_of_provisioned.
Proof. vm_compute. reflexivity. Qed.

Example load_config_health_model_missing :
  (IO.run Examples.health_model_missing
     (Cse._load_config_from_cse Examples.loads Examples.repr) []).1.1
  = None.
Proof. vm_compute. reflexivity. Qed.

(** * Further properties of the code *)

(** ** Label correction and species *)

Section LabelFacts.
Import PyStr Py Labels Detect.

Lemma lower_app a b : lower (a +:+ b) = lower a +:+ lower b.
Proof.
  induction a as [|c a IH]; [reflexivity|].
  rewrite app_cons. simpl. now rewrite IH, app_cons.
Qed.

Lemma str_app_assoc a b c : (a +:+ b) +:+ c = a +:+ b +:+ c.
Proof.
  induction a as [|x a IH]; [reflexivity|].
  rewrite !app_cons. now rewrite IH.
Qed.

(** X1: after the typo fix a label holds no "poinsenttia", and the fix
    changes a label exactly when it held one. *)
Theorem corrected_label_has_no_typo (x : string) :
  contains (correct_label x) "poinsenttia" = false /\
  (correct_label x = x <-> contains x "poinsenttia" = false).
Proof.
  assert (H : contains (correct_label x) "poinsenttia" = false).
  { unfold correct_label. destruct (contains x "poinsenttia") eqn:Hx.
    - apply replace_removes_typo.
    - exact Hx. }
  split; [exact H|]. split.
  - intros Heq. now rewrite Heq in H.
  - intros Hx. unfold correct_label. now rewrite Hx.
Qed.

(** The keywords of [extract_species_from_label] and their suffixes. *)
Lemma keyword_tails_cons t :
  In t (tails "basil" ++ tails "bail" ++ tails "poin") ->
  exists a t', t = String a t' /\
    (t' = "" \/ In t' (tails "basil" ++ tails "bail" ++ tails "poin")).
Proof.
  simpl; intros H.
  repeat (destruct H as [<-|H];
          [eexists _, _; split; [reflexivity|]; simpl; tauto|]).
  destruct H.
Qed.

Lemma replace_front_keyword x :
  forall t, In t (tails "basil" ++ tails "bail" ++ tails "poin") ->
    startswith (lower (replace x "poinsenttia" "poinsettia")) t
    = startswith (lower x) t.
Proof.
  induction x as [x IH] using string_length_ind; intros t Ht.
  destruct x as [|c x]; [reflexivity|].
  destruct (startswith (String c x) "poinsenttia") eqn:Hhit.
  - apply startswith_app in Hhit. rewrite Hhit, replace_hit, !lower_app.
    simpl in Ht.
    repeat (destruct Ht as [<-|Ht]; [reflexivity|]). destruct Ht.
  - rewrite (replace_copy _ _ _ _ Hhit).
    destruct (keyword_tails_cons t Ht) as (a & t' & -> & Ht').
    cbn [lower startswith]. f_equal.
    destruct Ht' as [->|Ht']; [reflexivity|].
    apply (IH x); [simpl; lia|exact Ht'].
Qed.

Lemma replace_keeps_keyword x k :
  In k ["basil"; "bail"; "poin"] ->
  contains (lower (replace x "poinsenttia" "poinsettia")) k = contains (lower x) k.
Proof.
  intros Hk. induction x as [x IH] using string_length_ind.
  destruct x as [|c x]; [reflexivity|].
  destruct (startswith (String c x) "poinsenttia") eqn:Hhit.
  - apply startswith_app in Hhit.
    set (r := drop (String.length "poinsenttia") (String c x)) in Hhit.
    clearbody r.
    assert (IHr := IH r). rewrite Hhit in IHr |- *.
    specialize (IHr ltac:(rewrite length_app; simpl; lia)).
    rewrite replace_hit, !lower_app. revert IHr.
    generalize (lower (replace r "poinsenttia" "poinsettia")), (lower r).
    intros u v IHr. simpl in Hk.
    destruct Hk as [<-|[<-|[<-|[]]]]; first [exact IHr | reflexivity].
  - rewrite (replace_copy _ _ _ _ Hhit).
    change (lower (String c ?y)) with (String (lower_char c) (lower y)).
    cbn [contains]. rewrite (IH x) by (simpl; lia). f_equal.
    change (String (lower_char c) (lower ?y)) with (lower (String c y)).
    rewrite <- (replace_copy _ _ _ _ Hhit).
    apply replace_front_keyword. simpl in *. intuition subst; tauto.
Qed.

Lemma correct_keeps_keyword x k :
  In k ["basil"; "bail"; "poin"] ->
  contains (lower (correct_label x)) k = contains (lower x) k.
Proof.
  intros Hk. unfold correct_label.
  destruct (contains x "poinsenttia"); [now apply replace_keeps_keyword|reflexivity].
Qed.

Lemma extract_correct_label x :
  extract_species_from_label (correct_label x) = extract_species_from_label x.
Proof.
  unfold extract_species_from_label.
  rewrite !correct_keeps_keyword by (simpl; tauto). reflexivity.
Qed.

(** X2: the typo fix never changes the species read from a label. *)
Theorem correction_preserves_species (x : string) :
  extract_species_from_label (correct_label x) = extract_species_from_label x.
Proof.
  unfold extract_species_from_label.
  rewrite !correct_keeps_keyword by (simpl; tauto). reflexivity.
Qed.

(** X3: the box of a label that says "unhealthy" is drawn in the colour of
    the healthy ones, since "unhealthy" holds "healthy"; red is left to the
    labels without "healthy" in any case. *)
Theorem unhealthy_box_is_green (health_label : string)
    (Hun : contains (lower health_label) "unhealthy" = true) :
  box_color health_label = (0, 255, 0)%Z /\
  (forall other, box_color other = (255, 0, 0)%Z ->
     contains (lower other) "unhealthy" = false /\
     contains (lower other) "healthy" = false).
Proof.
  assert (Himp : forall s, contains s "unhealthy" = true -> contains s "healthy" = true).
  { intros s H. apply contains_iff in H as (a & b & ->).
    apply contains_iff. exists (a +:+ "un"), b.
    now rewrite str_app_assoc. }
  split.
  - unfold box_color. now rewrite (Himp _ Hun).
  - intros other. unfold box_color.
    destruct (contains (lower other) "healthy") eqn:Hh; [discriminate|].
    intros _. split; [|reflexivity].
    destruct (contains (lower other) "unhealthy") eqn:Hu; [|reflexivity].
    apply Himp in Hu. congruence.
Qed.

Lemma unhealthy_box_is_green_witness :
  box_color "basil_unhealthy" = (0, 255, 0)%Z.
Proof.
  apply (unhealthy_box_is_green "basil_unhealthy"). reflexivity.
Defined.

(** *** The two maps *)

Lemma str_of_nat_fresh i : str_of_nat i ∉ str_of_nat <$> seq 0 i.
Proof.
  unfold str_of_nat. intros Hin.
  apply (list_elem_of_fmap_inj_2 pretty) in Hin.
  apply elem_of_seq in Hin. lia.
Qed.

Lemma detect_loop_health i labels hd u :
  hd.*1 = str_of_nat <$> seq 0 i ->
  (detect_loop i labels hd u).1
  = hd ++ imap (fun j l => (str_of_nat (i + j), VStr (correct_label l))) labels.
Proof.
  revert i hd u; induction labels as [|l labels IH]; intros i hd u Hkeys.
  - simpl. now rewrite app_nil_r.
  - cbn [detect_loop]. rewrite dict_set_fresh
      by (rewrite Hkeys; apply str_of_nat_fresh).
    rewrite IH.
    + rewrite <- app_assoc. f_equal. rewrite imap_cons. simpl.
      rewrite Nat.add_0_r. f_equal. apply imap_ext. intros j x _. simpl.
      now rewrite Nat.add_succ_r.
    + rewrite seq_S, !fmap_app, Hkeys. reflexivity.
Qed.

Lemma health_data_items labels :
  health_data labels
  = imap (fun i l => (str_of_nat i, VStr (correct_label l))) labels.
Proof.
  unfold health_data, detect_maps.
  pose proof (detect_loop_health 0 labels [] ∅ eq_refl) as H.
  destruct (detect_loop 0 labels [] ∅) as [hd u]. simpl in *. exact H.
Qed.

Lemma dict_get_numbered {V} (f : string -> V) labels k i :
  dict_get (imap (fun j l => (str_of_nat (k + j), f l)) labels) (str_of_nat (k + i))
  = f <$> labels !! i.
Proof.
  revert k i; induction labels as [|l labels IH]; intros k i; [reflexivity|].
  rewrite imap_cons. cbn [dict_get]. rewrite Nat.add_0_r.
  destruct i as [|i].
  - now rewrite Nat.add_0_r, String.eqb_refl.
  - destruct (String.eqb_spec (str_of_nat k) (str_of_nat (k + S i))) as [Heq|_].
    + apply (inj pretty) in Heq. lia.
    + rewrite (imap_ext _ (fun j l => (str_of_nat (S k + j), f l)))
        by (intros j x _; simpl; now rewrite Nat.add_succ_r).
      replace (k + S i) with (S k + i) by lia. apply IH.
Qed.

(** X4: the health map has one entry per detection, in detection order and
    with repeats kept: entry [str(i)] is the corrected label of detection
    [i], and no other key is present. *)
Theorem health_map_lists_detections (labels : list string) :
  health_data labels
  = imap (fun i l => (str_of_nat i, VStr (correct_label l))) labels /\
  List.length (health_data labels) = List.length labels /\
  (forall i, dict_get (health_data labels) (str_of_nat i)
             = (fun l => VStr (correct_label l)) <$> labels !! i).
Proof.
  rewrite health_data_items. split_and!.
  - reflexivity.
  - apply length_imap.
  - intros i.
    exact (dict_get_numbered (fun l => VStr (correct_label l)) labels 0 i).
Qed.

Lemma has_species_iff sp labels :
  has_species sp labels = true <->
  exists l, l ∈ labels /\ extract_species_from_label (correct_label l) = sp.
Proof.
  unfold has_species. rewrite existsb_exists. split.
  - intros (l & Hl & Heq). exists l. split; [now apply list_elem_of_In|].
    rewrite extract_correct_label. now apply String.eqb_eq.
  - intros (l & Hl & Heq). exists l. split; [now apply list_elem_of_In|].
    rewrite extract_correct_label in Heq. now apply String.eqb_eq.
Qed.

Lemma unique_species_cases labels :
  unique_species labels
  = (if has_species "basil" labels then {[ "basil" ]} else ∅)
    ∪ (if has_species "poinsettia" labels then {[ "poinsettia" ]} else ∅).
Proof.
  apply set_eq. intros sp.
  rewrite elem_of_unique_species, elem_of_union.
  pose proof (has_species_iff "basil" labels) as Hb.
  pose proof (has_species_iff "poinsettia" labels) as Hp.
  split.
  - intros (Hne & l & Hl & Hsp).
    destruct (extract_species_cases (correct_label l)) as [H|[H|H]];
      rewrite H in Hsp; subst sp.
    + left. rewrite (proj2 Hb) by (now exists l). now apply elem_of_singleton.
    + right. rewrite (proj2 Hp) by (now exists l). now apply elem_of_singleton.
    + contradiction.
  - intros [H|H].
    + destruct (has_species "basil" labels); [|now apply elem_of_empty in H].
      apply elem_of_singleton in H as ->. split; [discriminate|]. now apply Hb.
    + destruct (has_species "poinsettia" labels); [|now apply elem_of_empty in H].
      apply elem_of_singleton in H as ->. split; [discriminate|]. now apply Hp.
Qed.

Lemma species_data_cases labels :
  species_data labels
  = match has_species "basil" labels, has_species "poinsettia" labels with
    | true, true => [("0", VStr "basil"); ("1", VStr "poinsettia")]
    | true, false => [("0", VStr "basil")]
    | false, true => [("0", VStr "poinsettia")]
    | false, false => []
    end.
Proof.
  rewrite species_data_unfold, unique_species_cases.
  now destruct (has_species "basil" labels), (has_species "poinsettia" labels);
    vm_compute.
Qed.

(** X5: the species map takes one of four values, fixed by which of the
    two species some detected label names: basil comes first when both are
    there, a lone species has key "0", and no known species gives the empty
    map. *)
Theorem species_map_four_values (labels : list string) :
  species_data labels
  = match has_species "basil" labels, has_species "poinsettia" labels with
    | true, true => [("0", VStr "basil"); ("1", VStr "poinsettia")]
    | true, false => [("0", VStr "basil")]
    | false, true => [("0", VStr "poinsettia")]
    | false, false => []
    end.
Proof.
  rewrite species_data_unfold, unique_species_cases.
  destruct (has_species "basil" labels), (has_species "poinsettia" labels).
  - now vm_compute.
  - now vm_compute.
  - now vm_compute.
  - now vm_compute.
Qed.

Lemma two_species_two_labels labels :
  has_species "basil" labels = true -> has_species "poinsettia" labels = true ->
  2 <= List.length labels.
Proof.
  rewrite !has_species_iff. intros (l1 & H1 & E1) (l2 & H2 & E2).
  destruct labels as [|a [|b labels]]; simpl; [|exfalso|lia].
  - now apply elem_of_nil in H1.
  - apply list_elem_of_singleton in H1, H2. subst. congruence.
Qed.

(** X6: the species map has at most two entries and never more entries
    than the health map; the health map is empty only when nothing was
    detected.  So a non-empty species map always comes with a non-empty
    health map. *)
Theorem species_map_within_health_map (labels : list string) :
  List.length (species_data labels) <= 2 /\
  List.length (species_data labels) <= List.length (health_data labels) /\
  (health_data labels = [] <-> labels = []) /\
  (species_data labels <> [] -> health_data labels <> []).
Proof.
  assert (Hlen : List.length (health_data labels) = List.length labels)
    by (rewrite health_data_items; apply length_imap).
  assert (Hle : List.length (species_data labels) <= List.length labels).
  { rewrite species_data_cases.
    destruct (has_species "basil" labels) eqn:Hb,
             (has_species "poinsettia" labels) eqn:Hp; simpl.
    - now apply two_species_two_labels.
    - apply has_species_iff in Hb as (l & Hl & _).
      destruct labels; [now apply elem_of_nil in Hl|simpl; lia].
    - apply has_species_iff in Hp as (l & Hl & _).
      destruct labels; [now apply elem_of_nil in Hl|simpl; lia].
    - lia. }
  split_and!.
  - rewrite species_data_cases.
    destruct (has_species "basil" labels), (has_species "poinsettia" labels);
      simpl; lia.
  - now rewrite Hlen.
  - split.
    + intros H. rewrite H in Hlen. now destruct labels.
    + intros ->. reflexivity.
  - intros Hs Hh. rewrite Hh in Hlen. simpl in Hlen.
    destruct (species_data labels); [contradiction|simpl in Hle; lia].
Qed.

End LabelFacts.

(** ** The detection cycle *)

Section DetectFacts.
Import Py IO Cse Labels Detect Requests.

Lemma only_run {W A} (env : world W) (P : event -> Prop) (m : io A) w :
  only P m -> Forall P (run env m w).2.
Proof.
  revert w; induction m as [a|url hdrs t k IH|url hdrs p t k IH|fmt k IH|k IH];
    intros w Hm; simpl in *.
  - constructor.
  - destruct (requests_get env url hdrs t w) as [r w1].
    destruct (Hm r) as [HP Hk]. specialize (IH r w1 Hk).
    destruct (run env (k r) w1) as [[a w2] tr]. now constructor.
  - destruct (requests_post env url hdrs p t w) as [r w1].
    destruct (Hm r) as [HP Hk]. specialize (IH r w1 Hk).
    destruct (run env (k r) w1) as [[a w2] tr]. now constructor.
  - destruct (now_strftime env fmt w) as [s w1]. now apply IH.
  - destruct (time_time env w) as [t w1]. now apply IH.
Qed.

Lemma only_bind {A B} (P : event -> Prop) (m : io A) (f : A -> io B) :
  only P m -> (forall a, only P (f a)) -> only P (bind m f).
Proof.
  intros Hm Hf. induction m as [a|url hdrs t k IH|url hdrs p t k IH|fmt k IH|k IH];
    simpl in *.
  - apply Hf.
  - intros r. destruct (Hm r). split; [assumption|now apply IH].
  - intros r. destruct (Hm r). split; [assumption|now apply IH].
  - intros x. now apply IH.
  - intros x. now apply IH.
Qed.

Lemma posts_of_posts tr : Forall is_post tr -> posts tr = [] -> tr = [].
Proof.
  intros Hall. destruct Hall as [|e tr He _]; [reflexivity|].
  destruct e; [destruct He|discriminate].
Qed.

Variable json_dumps : value -> string.
Variable str_float : Q -> string.

Lemma send_to_tinyiot_only_posts cfg species_data health_data :
  only is_post (_send_to_tinyiot json_dumps str_float cfg species_data health_data).
Proof.
  unfold _send_to_tinyiot. cbn [bind only]. intros timestamp now.
  destruct species_data, health_data; cbn [truthy bind only]; repeat split.
Qed.

Context {W : Type} (env : world W).


(** X8: a cycle whose capture, inference and drawing succeed makes only
    POSTs: one to the species resource when some label names a known
    species, then one to the health resource when anything was detected.
    With nothing detected it makes no request and returns [True]. *)
Theorem detect_uploads_by_detections
    (cfg : config) (detections : list detection) (w : W) :
  let labels := name <$> detections in
  let '(ok, _, tr) :=
    run env (detect json_dumps str_float cfg (Returned tt) (Returned detections)
               (Returned tt)) w in
  Forall is_post tr /\
  (fun p => p.1.1) <$> posts tr
  = (if has_species "basil" labels || has_species "poinsettia" labels
     then [url_species cfg] else [])
    ++ (if detections is [] then [] else [url_health cfg]) /\
  (detections = [] -> ok = true /\ tr = []).
Proof.
  intros labels. unfold detect. fold labels.
  pose proof (species_data_cases labels) as Hs.
  pose proof (health_data_items labels) as Hh.
  unfold species_data, health_data in Hs, Hh.
  destruct (detect_maps labels) as [sd hd]. cbn [fst snd] in Hs, Hh.
  pose proof (send_to_tinyiot_run json_dumps str_float env cfg sd hd w) as Hrun.
  pose proof (only_run env is_post _ w
                (send_to_tinyiot_only_posts cfg sd hd)) as Honly.
  cbv zeta in Hrun.
  destruct (run env (_send_to_tinyiot json_dumps str_float cfg sd hd) w)
    as [[ok w'] tr]. cbn [snd] in Honly.
  destruct Hrun as (rs & rh & Hposts & Hok).
  assert (Hsd : truthy (VDict sd)
                = has_species "basil" labels || has_species "poinsettia" labels).
  { rewrite Hs. now destruct (has_species "basil" labels),
                             (has_species "poinsettia" labels). }
  assert (Hhd : truthy (VDict hd) = if detections is [] then false else true).
  { rewrite Hh. unfold labels. now destruct detections. }
  rewrite Hsd, Hhd in Hposts, Hok.
  split_and!.
  - exact Honly.
  - rewrite Hposts.
    now destruct (has_species "basil" labels || has_species "poinsettia" labels),
                 detections.
  - intros ->. simpl in Hposts, Hok. split; [exact Hok|].
    now apply posts_of_posts.
Qed.

End DetectFacts.


Example detect_two_plants :
  let '(ok, _, tr) :=
    IO.run Examples.provisioned
      (Detect.detect Examples.dumps Examples.str_seconds
         Examples.config_of_provisioned (Py.Returned tt)
         (Py.Returned
            [{| Detect.box := (0, 0, 10, 10)%Z; Detect.name := "healthy_basil";
                Detect.conf := 0.9%Q |};
             {| Detect.box := (5, 5, 20, 20)%Z; Detect.name := "unhealthy_poinsenttia";
                Detect.conf := 0.8%Q |}])
         (Py.Returned tt)) [] in
  ok = true /\
  (fun p => p.1.1) <$> Cse.posts tr
  = ["http://YOUR_SERVER_IP:3000/TinyIoT/TinyFarm/inference/species";
     "http://YOUR_SERVER_IP:3000/TinyIoT/TinyFarm/inference/health"].
Proof. vm_compute. split; reflexivity. Qed.

(** ** Runs of the scheduler *)

Section PollFacts.
Import Scheduler Runs.

Lemma ticks_cons target_hours h hours st :
  ticks target_hours (h :: hours) st = ticks target_hours hours (tick target_hours h st).
Proof. reflexivity. Qed.

Lemma last_cons_default (h : Z) hours d :
  List.last (h :: hours) d = List.last hours h.
Proof.
  revert h d; induction hours as [|x hours IH]; intros h d; [reflexivity|].
  change (List.last (h :: x :: hours) d) with (List.last (x :: hours) d).
  rewrite !IH. reflexivity.
Qed.

(** X9: whatever the target hours and the hours polled, every hour at
    which a cycle ran is a target hour that was polled, and there are no
    more cycles than polls: a non-target hour never runs a cycle. *)
Theorem cycles_only_at_target_hours
    (target_hours hours : list Z) (st : state) :
  exists fired,
    cycles (ticks target_hours hours st) = cycles st ++ fired /\
    Forall (fun h => h ∈ target_hours /\ h ∈ hours) fired /\
    List.length fired <= List.length hours.
Proof.
  revert st; induction hours as [|h hours IH]; intros st.
  - exists []. split; [now rewrite app_nil_r|]. split; [constructor|simpl; lia].
  - rewrite ticks_cons.
    destruct (IH (tick target_hours h st)) as (fired & Hc & Hall & Hlen).
    assert (Hweak : Forall (fun x => x ∈ target_hours /\ x ∈ h :: hours) fired).
    { eapply Forall_impl; [exact Hall|]. intros x [Hx1 Hx2]. split; [exact Hx1|now right]. }
    destruct (tick_cases target_hours h st)
      as [(Hin & _ & Hfire)|[(_ & _ & Hreset)|(_ & Hstay)]].
    + exists (h :: fired). rewrite Hc, Hfire. simpl. rewrite <- app_assoc.
      split; [reflexivity|]. split; [|simpl; lia].
      constructor; [split; [exact Hin|left]|exact Hweak].
    + exists fired. rewrite Hc, Hreset. simpl.
      split; [reflexivity|]. split; [exact Hweak|lia].
    + exists fired. rewrite Hc, Hstay.
      split; [reflexivity|]. split; [exact Hweak|simpl; lia].
Qed.

(** X10: with [TARGET_HOURS = list(range(24))] and hours of the day polled,
    a cycle runs exactly at each poll whose hour differs from the hour of
    the poll before (from [last_detection_hour] at the first poll), and
    after the polls [last_detection_hour] is the hour polled last: the
    reset to -1 is never taken. *)
Theorem default_schedule_fires_on_hour_changes
    (hours : list Z) (st : state)
    (Hday : Forall (fun h => 0 <= h < 24)%Z hours) :
  cycles (ticks TARGET_HOURS hours st)
  = cycles st ++ hour_changes (last_detection_hour st) hours /\
  last_detection_hour (ticks TARGET_HOURS hours st)
  = List.last hours (last_detection_hour st).
Proof.
  revert st; induction Hday as [|h hours Hh Hday IH]; intros st.
  - split; [now rewrite app_nil_r|reflexivity].
  - rewrite ticks_cons.
    rewrite last_cons_default. cbn [hour_changes].
    destruct (tick_cases TARGET_HOURS h st)
      as [(_ & Hne & Hfire)|[(Hnot & _)|(Heq & Hstay)]].
    + destruct (IH (tick TARGET_HOURS h st)) as [Hc Hl].
      rewrite Hc, Hl, Hfire. simpl.
      apply Z.eqb_neq in Hne. rewrite Hne, <- app_assoc. now split.
    + exfalso. apply Hnot. unfold TARGET_HOURS. apply elem_of_seqZ. lia.
    + destruct (IH (tick TARGET_HOURS h st)) as [Hc Hl].
      rewrite Hc, Hl, Hstay, <- Heq, Z.eqb_refl. now split.
Qed.

Lemma default_schedule_fires_on_hour_changes_witness :
  cycles (ticks TARGET_HOURS [9; 9; 10; 10; 9]%Z initial)
  = cycles initial ++ hour_changes (last_detection_hour initial) [9; 9; 10; 10; 9]%Z.
Proof.
  refine (proj1 (default_schedule_fires_on_hour_changes
                   [9; 9; 10; 10; 9]%Z initial _)).
  repeat constructor; lia.
Defined.

End PollFacts.

(** ** Runs of the frame buffer *)

Section BufferFacts.
Import Stream Runs.

Lemma step_keeps_frame a st st' :
  step a st = Some st' -> (forall buf, a <> WriteFrame buf) ->
  frame st' = frame st /\ written st' = written st.
Proof.
  intros Hstep Ha. destruct a as [buf|v|v|v|v]; simpl in Hstep.
  - now destruct (Ha buf).
  - destruct (viewers st !! v); [discriminate|]. now injection Hstep as <-.
  - destruct (viewers st !! v) as [[c [|since|since]]|]; try discriminate.
    now injection Hstep as <-.
  - destruct (viewers st !! v) as [[c [|since|since]]|]; try discriminate.
    now injection Hstep as <-.
  - destruct (viewers st !! v); [|discriminate]. now injection Hstep as <-.
Qed.

Lemma exec_writes acts st st' :
  exec acts st = Some st' ->
  written st' = written st + List.length (writes acts) /\
  frame st' = match last (writes acts) with
              | Some buf => Some (written st', buf)
              | None => frame st
              end.
Proof.
  revert st; induction acts as [|a acts IH]; intros st Hexec; simpl in Hexec.
  - injection Hexec as <-. simpl. split; [lia|reflexivity].
  - destruct (step a st) as [st1|] eqn:Hstep; [|discriminate].
    destruct (IH st1 Hexec) as [Hw Hf].
    destruct a as [buf|v|v|v|v].
    + injection Hstep as <-. simpl in Hw, Hf.
      change (writes (WriteFrame buf :: acts)) with (buf :: writes acts).
      rewrite last_cons. simpl. split; [lia|].
      destruct (last (writes acts)) eqn:Hlast; [exact Hf|].
      apply last_None in Hlast. rewrite Hlast in Hw. simpl in Hw.
      rewrite Hf. f_equal. f_equal. lia.
    + destruct (step_keeps_frame _ _ _ Hstep) as [Hf1 Hw1]; [discriminate|].
      change (writes (Connect v :: acts)) with (writes acts).
      now rewrite <- Hf1, <- Hw1.
    + destruct (step_keeps_frame _ _ _ Hstep) as [Hf1 Hw1]; [discriminate|].
      change (writes (Wait v :: acts)) with (writes acts).
      now rewrite <- Hf1, <- Hw1.
    + destruct (step_keeps_frame _ _ _ Hstep) as [Hf1 Hw1]; [discriminate|].
      change (writes (Wake v :: acts)) with (writes acts).
      now rewrite <- Hf1, <- Hw1.
    + destruct (step_keeps_frame _ _ _ Hstep) as [Hf1 Hw1]; [discriminate|].
      change (writes (Hangup v :: acts)) with (writes acts).
      now rewrite <- Hf1, <- Hw1.
Qed.

(** X11: the buffer is a single slot.  After any schedule it holds the
    frame written last, whatever the viewers did and however many frames
    were written, and it is empty only when nothing was written. *)
Theorem buffer_holds_last_write
    (acts : list action) (st : state)
    (Hexec : exec acts initial = Some st) :
  written st = List.length (writes acts) /\
  frame st = (fun buf => (List.length (writes acts), buf)) <$> last (writes acts) /\
  (frame st = None <-> writes acts = []).
Proof.
  destruct (exec_writes acts initial st Hexec) as [Hw Hf]. simpl in Hw, Hf.
  split; [exact Hw|]. rewrite <- Hw. split.
  - rewrite Hf. now destruct (last (writes acts)).
  - rewrite Hf. destruct (last (writes acts)) eqn:Hlast.
    + split; [discriminate|]. intros H. now rewrite H in Hlast.
    + apply last_None in Hlast. now split.
Qed.

Lemma buffer_holds_last_write_witness :
  exists st,
    exec [WriteFrame [Byte.x01]; Connect 0; WriteFrame [Byte.x02]] initial = Some st /\
    frame st = Some (2, [Byte.x02]).
Proof.
  destruct (exec [WriteFrame [Byte.x01]; Connect 0; WriteFrame [Byte.x02]] initial)
    as [st|] eqn:Hexec; [|vm_compute in Hexec; discriminate Hexec].
  exists st. split; [reflexivity|].
  destruct (buffer_holds_last_write _ _ Hexec) as (_ & Hf & _).
  exact Hf.
Defined.

Lemma log_inv_initial : log_inv initial.
Proof.
  split; simpl.
  - intros i j d1 d2 H. now rewrite lookup_nil in H.
  - constructor.
  - constructor.
Qed.

Lemma log_inv_step a st st' :
  inv st -> log_inv st -> step a st = Some st' -> log_inv st'.
Proof.
  intros [_ _ Hvs _] [Hord Hpast Hwait] Hstep.
  destruct a as [buf|v|v|v|v]; simpl in Hstep.
  - injection Hstep as <-. split; simpl.
    + exact Hord.
    + eapply Forall_impl; [exact Hpast|]. simpl. intros d Hd. lia.
    + intros v vw since. rewrite lookup_fmap.
      destruct (viewers st !! v) as [vw0|] eqn:Hv; [|discriminate].
      intros [= <-] Hpc. apply (Hwait v vw0 since Hv).
      unfold notify in Hpc. destruct (at_pc vw0) eqn:Hpc0; simpl in Hpc;
        try rewrite Hpc0 in Hpc; destruct Hpc as [Hpc|Hpc];
        try discriminate Hpc; injection Hpc as <-; tauto.
  - destruct (viewers st !! v) eqn:Hv; [discriminate|].
    injection Hstep as <-. split; simpl; try assumption.
    intros v' vw since. rewrite lookup_insert_Some.
    intros [[_ <-]|[_ H]]; [simpl; intros [?|?]; discriminate|now apply (Hwait v')].
  - destruct (viewers st !! v) as [[c [|since|since]]|] eqn:Hv; try discriminate.
    injection Hstep as <-. split; simpl; try assumption.
    intros v' vw since. rewrite lookup_insert_Some.
    intros [[<- <-]|[_ H]]; [|now apply (Hwait v')].
    simpl. intros [[= <-]|?]; [|discriminate].
    eapply Forall_impl; [exact Hpast|]. simpl. tauto.
  - destruct (viewers st !! v) as [[c [|since|since]]|] eqn:Hv; try discriminate.
    injection Hstep as <-.
    destruct (Hvs v _ Hv) as [_ [_ Hlt]]. simpl in Hlt.
    pose proof (Hwait v _ since Hv (or_intror eq_refl)) as Hmine.
    rewrite Forall_forall in Hmine.
    split; simpl.
    + intros i j d1 d2 H1 H2 Hij Hwho.
      apply lookup_snoc_Some in H2 as [[Hj H2]|[-> <-]].
      * apply lookup_snoc_Some in H1 as [[_ H1]|[-> _]]; [|lia].
        now apply (Hord i j).
      * apply lookup_snoc_Some in H1 as [[_ H1]|[Hi _]]; [|lia].
        simpl in *. apply list_elem_of_lookup_2 in H1.
        specialize (Hmine d1 H1 Hwho). lia.
    + apply Forall_app. split; [exact Hpast|]. constructor; [simpl; lia|constructor].
    + intros v' vw since'. rewrite lookup_insert_Some.
      intros [[_ <-]|[Hne H]]; [simpl; intros [?|?]; discriminate|].
      intros Hpc. apply Forall_app. split; [now apply (Hwait v' vw)|].
      constructor; [simpl; congruence|constructor].
  - destruct (viewers st !! v) eqn:Hv; [|discriminate].
    injection Hstep as <-. split; simpl; try assumption.
    intros v' vw since. rewrite lookup_delete_Some. intros [_ H].
    now apply (Hwait v').
Qed.

Lemma log_inv_exec acts st st' :
  inv st -> log_inv st -> exec acts st = Some st' -> log_inv st'.
Proof.
  revert st; induction acts as [|a acts IH]; intros st Hinv Hlog; simpl.
  - now intros [= <-].
  - destruct (step a st) as [st1|] eqn:Hstep; [|discriminate].
    apply IH; [now apply (inv_step a st)|now apply (log_inv_step a st)].
Qed.

(** X12: a viewer never receives a frame twice nor an older frame after a
    newer one: of two deliveries to the same viewer, the later one carries
    a frame of strictly higher rank. *)
Theorem viewer_frames_strictly_newer
    (acts : list action) (st : state) (i j : nat) (d1 d2 : delivery)
    (Hexec : exec acts initial = Some st)
    (H1 : log st !! i = Some d1) (H2 : log st !! j = Some d2)
    (Hij : i < j) (Hwho : who d1 = who d2) :
  exists n1 buf1 n2 buf2,
    seen d1 = Some (n1, buf1) /\ seen d2 = Some (n2, buf2) /\ n1 < n2.
Proof.
  pose proof (inv_exec acts _ _ inv_initial Hexec) as [_ _ _ Hfresh].
  pose proof (log_inv_exec acts _ _ inv_initial log_inv_initial Hexec) as [Hord _ _].
  rewrite Forall_forall in Hfresh.
  destruct (Hfresh d1 (list_elem_of_lookup_2 _ _ _ H1)) as (buf1 & Hs1 & _).
  destruct (Hfresh d2 (list_elem_of_lookup_2 _ _ _ H2)) as (buf2 & Hs2 & _).
  exists (read_at d1), buf1, (read_at d2), buf2.
  split; [exact Hs1|]. split; [exact Hs2|]. now apply (Hord i j).
Qed.

Lemma viewer_frames_strictly_newer_witness :
  exists st d1 d2,
    exec [Connect 0; Wait 0; WriteFrame [Byte.x01]; Wake 0;
          Wait 0; WriteFrame [Byte.x02]; Wake 0] initial = Some st /\
    log st = [d1; d2] /\
    exists n1 buf1 n2 buf2,
      seen d1 = Some (n1, buf1) /\ seen d2 = Some (n2, buf2) /\ n1 < n2.
Proof.
  destruct (exec [Connect 0; Wait 0; WriteFrame [Byte.x01]; Wake 0;
                  Wait 0; WriteFrame [Byte.x02]; Wake 0] initial)
    as [st|] eqn:Hexec; [|vm_compute in Hexec; discriminate Hexec].
  assert (Hlog : log st
    = [{| who := 0; since_connect := 0; since_wait := 0; read_at := 1;
          seen := Some (1, [Byte.x01]) |};
       {| who := 0; since_connect := 0; since_wait := 1; read_at := 2;
          seen := Some (2, [Byte.x02]) |}]).
  { pose proof Hexec as Hst. vm_compute in Hst. now injection Hst as <-. }
  eexists st, _, _. split; [reflexivity|]. split; [exact Hlog|].
  apply (viewer_frames_strictly_newer _ st 0 1 _ _ Hexec).
  - now rewrite Hlog.
  - now rewrite Hlog.
  - lia.
  - reflexivity.
Defined.

End BufferFacts.

(** ** Requests of the config resolution *)

Section ResolutionRequests.
Import Py IO Cse Requests.
Variable json_loads : string -> option value.
Variable py_repr : value -> string.
Context {W : Type} (env : world W).

Let read (url : string) (w : W) : value * W * list event :=
  run env (get_latest_cin_json json_loads url RASPI_ORIGIN) w.

Lemma read_trace url w :
  exists got, (read url w).2
    = [EGet (url +:+ "/la")
         [("X-M2M-Origin", RASPI_ORIGIN); ("X-M2M-RVI", "2a");
          ("Accept", "application/json")] 5 got].
Proof.
  unfold read. rewrite run_get_latest_cin_json. simpl. now eexists.
Qed.

(** The requests of a resolution in terms of its four reads. *)
Lemma load_config_trace w :
  let '(v1, w1, t1) := read deploy_species_url w in
  let '(v2, w2, t2) := read deploy_health_url w1 in
  let '(v3, w3, t3) := read (model_url py_repr v1) w2 in
  let '(v4, w4, t4) := read (model_url py_repr v2) w3 in
  (run env (_load_config_from_cse json_loads py_repr) w).2
  = if negb (truthy v1) then t1
    else if negb (truthy v2) then t1 ++ t2
    else if isinstance_dict v1 && isinstance_dict v2
         then t1 ++ t2 ++ t3 ++ t4
         else t1 ++ t2.
Proof.
  destruct (read deploy_species_url w) as [[v1 w1] t1] eqn:E1.
  destruct (read deploy_health_url w1) as [[v2 w2] t2] eqn:E2.
  destruct (read (model_url py_repr v1) w2) as [[v3 w3] t3] eqn:E3.
  destruct (read (model_url py_repr v2) w3) as [[v4 w4] t4] eqn:E4.
  unfold _load_config_from_cse, load_config_try.
  rewrite !run_bind.
  change (run env (get_latest_cin_json json_loads _ RASPI_ORIGIN) w)
    with (read deploy_species_url w).
  rewrite E1.
  destruct (truthy v1) eqn:T1; simpl negb; cbv iota;
    [|rewrite !run_ret; simpl; now rewrite !app_nil_r].
  rewrite !run_bind.
  change (run env (get_latest_cin_json json_loads _ RASPI_ORIGIN) w1)
    with (read deploy_health_url w1).
  rewrite E2.
  destruct (truthy v2) eqn:T2; simpl negb; cbv iota;
    [|rewrite !run_ret; simpl; now rewrite !app_nil_r].
  destruct v1 as [| | | |l1|d1];
    try (cbn; now rewrite !app_nil_r).
  destruct v2 as [| | | |l2|d2];
    try (cbn; now rewrite !app_nil_r).
  unfold try_bind. cbn [bind py_get isinstance_dict andb].
  rewrite !run_bind.
  change (run env (get_latest_cin_json json_loads _ RASPI_ORIGIN) w2)
    with (read (model_url py_repr (VDict d1)) w2).
  rewrite E3.
  rewrite !run_bind.
  change (run env (get_latest_cin_json json_loads _ RASPI_ORIGIN) w3)
    with (read (model_url py_repr (VDict d2)) w3).
  rewrite E4.
  destruct (negb (truthy v3) || negb (truthy v4));
    rewrite !run_ret; cbn [fst snd]; now rewrite !app_nil_r.
Qed.

End ResolutionRequests.

(** X13: the resolution only makes GETs, each to [<container>/la].  It
    stops after the first deployment read when that one gave nothing, after
    the second when that one gave nothing or when one of the two is not an
    object; otherwise it reads both models, the health model also when the
    species model read failed.  The model containers are the [modelID]s of
    the deployment records. *)
Theorem resolution_requests
    (json_loads : string -> option Py.value) (py_repr : Py.value -> string)
    {W : Type} (env : IO.world W) (w : W) :
  let read url w :=
    IO.run env (Cse.get_latest_cin_json json_loads url Cse.RASPI_ORIGIN) w in
  let '(v1, w1, _) := read Cse.deploy_species_url w in
  let '(v2, _, _) := read Cse.deploy_health_url w1 in
  let tr := (IO.run env (Cse._load_config_from_cse json_loads py_repr) w).2 in
  Forall Requests.is_get tr /\
  Requests.event_url <$> tr
  = if negb (Py.truthy v1) then [Cse.deploy_species_url +:+ "/la"]
    else if negb (Py.truthy v2) || negb (Py.isinstance_dict v1 && Py.isinstance_dict v2)
         then [Cse.deploy_species_url +:+ "/la"; Cse.deploy_health_url +:+ "/la"]
         else [Cse.deploy_species_url +:+ "/la"; Cse.deploy_health_url +:+ "/la";
               Cse.model_url py_repr v1 +:+ "/la"; Cse.model_url py_repr v2 +:+ "/la"].
Proof.
  intros read.
  pose proof (load_config_trace json_loads py_repr env w) as Htr.
  cbv beta in Htr. subst read. cbv beta.
  destruct (read_trace json_loads env Cse.deploy_species_url w) as [g1 H1].
  cbv beta in H1. revert Htr H1.
  destruct (IO.run env (Cse.get_latest_cin_json json_loads Cse.deploy_species_url _) w)
    as [[v1 w1] t1].
  destruct (read_trace json_loads env Cse.deploy_health_url w1) as [g2 H2].
  cbv beta in H2. revert H2.
  destruct (IO.run env (Cse.get_latest_cin_json json_loads Cse.deploy_health_url _) w1)
    as [[v2 w2] t2].
  destruct (read_trace json_loads env (Cse.model_url py_repr v1) w2) as [g3 H3].
  cbv beta in H3. revert H3.
  destruct (IO.run env (Cse.get_latest_cin_json json_loads (Cse.model_url py_repr v1) _) w2)
    as [[v3 w3] t3].
  destruct (read_trace json_loads env (Cse.model_url py_repr v2) w3) as [g4 H4].
  cbv beta in H4. revert H4.
  destruct (IO.run env (Cse.get_latest_cin_json json_loads (Cse.model_url py_repr v2) _) w3)
    as [[v4 w4] t4].
  cbn [snd]. intros -> -> -> -> ->.
  destruct (negb (Py.truthy v1)); [split; [repeat constructor|reflexivity]|].
  destruct (negb (Py.truthy v2)); [split; [repeat constructor|reflexivity]|].
  destruct (Py.isinstance_dict v1 && Py.isinstance_dict v2);
    split; first [repeat constructor | reflexivity].
Qed.

Section ResolvedFields.
Import Py IO Cse.
Variable json_loads : string -> option value.
Variable py_repr : value -> string.
Context {W : Type} (env : world W).

(** X14: when the four reads give objects and the health deployment
    record names its output resource by a string, the resolved health URL
    is the server URL followed by that string, and the same for species. *)
Theorem resolved_output_urls (w : W) :
  let read url w := run env (get_latest_cin_json json_loads url RASPI_ORIGIN) w in
  let '(v1, w1, _) := read deploy_species_url w in
  let '(v2, w2, _) := read deploy_health_url w1 in
  let '(v3, w3, _) := read (model_url py_repr v1) w2 in
  let '(v4, _, _) := read (model_url py_repr v2) w3 in
  structured v1 && structured v2 && structured v3 && structured v4 = true ->
  forall species_path health_path,
    field v1 "outputResource" = VStr species_path ->
    field v2 "outputResource" = VStr health_path ->
    exists c,
      (run env (_load_config_from_cse json_loads py_repr) w).1.1 = Some c /\
      url_species c = TINYIOT_URL +:+ species_path /\
      url_health c = TINYIOT_URL +:+ health_path.
Proof.
  intros read.
  pose proof (load_config_result json_loads py_repr env w) as Hres.
  cbv beta in Hres. subst read. cbv beta. revert Hres.
  destruct (run env (get_latest_cin_json json_loads deploy_species_url _) w)
    as [[v1 w1] t1].
  destruct (run env (get_latest_cin_json json_loads deploy_health_url _) w1)
    as [[v2 w2] t2].
  destruct (run env (get_latest_cin_json json_loads (model_url py_repr v1) _) w2)
    as [[v3 w3] t3].
  destruct (run env (get_latest_cin_json json_loads (model_url py_repr v2) _) w3)
    as [[v4 w4] t4].
  intros Hres Hall sp hp Hsp Hhp. rewrite Hres, Hall.
  eexists. split; [reflexivity|]. simpl. now rewrite Hsp, Hhp.
Qed.


(** X16: a record as [_send_to_tinyiot] writes it cannot be read back by
    [get_latest_cin_json]: its content field is the text "data", which is
    not JSON, so the read of a container whose latest record is an upload
    returns [None]. *)
Theorem uploaded_record_reads_as_none
    (container_url origin json_string : string) (w : W) (r : response)
    (Hdata : json_loads "data" = None)
    (Hgot : (requests_get env (container_url +:+ "/la")
               [("X-M2M-Origin", origin); ("X-M2M-RVI", "2a");
                ("Accept", "application/json")] 5 w).1 = Returned r)
    (H200 : status_code r = 200%Z)
    (Hrecord : content_of r = cin_field (cin_payload json_string) "con") :
  (run env (get_latest_cin_json json_loads container_url origin) w).1.1 = VNone.
Proof.
  rewrite run_get_latest_cin_json. simpl. rewrite Hgot.
  rewrite (latest_cin_200 json_loads r H200), Hrecord. simpl.
  now rewrite Hdata.
Qed.

End ResolvedFields.

Lemma resolved_output_urls_witness :
  exists c,
    (IO.run Examples.provisioned
       (Cse._load_config_from_cse Examples.loads Examples.repr) []).1.1 = Some c /\
    Cse.url_health c = "http://YOUR_SERVER_IP:3000/TinyIoT/TinyFarm/inference/health".
Proof.
  pose proof (resolved_output_urls Examples.loads Examples.repr
                Examples.provisioned []) as H.
  vm_compute in H.
  destruct (H eq_refl _ _ eq_refl eq_refl) as (c & Hc & _ & Hh).
  exists c. split; [exact Hc|exact Hh].
Defined.


Lemma uploaded_record_reads_as_none_witness :
  (IO.run Scenarios.uploads_only
     (Cse.get_latest_cin_json Examples.loads
        "http://YOUR_SERVER_IP:3000/TinyIoT/TinyFarm/inference/health"
        Cse.RASPI_ORIGIN) tt).1.1 = Py.VNone.
Proof.
  apply (uploaded_record_reads_as_none Examples.loads Scenarios.uploads_only
           _ _ "{}" tt
           {| IO.status_code := 200; IO.json := Py.Returned (Cse.cin_payload "{}") |}).
  - reflexivity.
  - reflexivity.
  - reflexivity.
  - reflexivity.
Defined.

(** ** The provisioning script *)

Section SetupFacts.
Import Py IO Cse Requests Setup.
Variable json_dumps : value -> string.
Context {W : Type} (env : world W).

(** X17: a record written by [create_content_instance] reads back through
    [get_latest_cin_json]: the script POSTs one body to the container, and
    a 200 answer carrying the content field of that body makes the read
    return the dict that was written, when decoding undoes the encoding of
    that dict. *)
Theorem provisioned_record_reads_back
    (json_loads : string -> option value)
    (container_url origin : string) (data_dict : pydict) (w w' : W) (r : response)
    (Hdict : data_dict <> [])
    (Htext : json_dumps (VDict data_dict) <> "")
    (Hloads : json_loads (json_dumps (VDict data_dict)) = Some (VDict data_dict))
    (Hgot : (requests_get env (container_url +:+ "/la")
               [("X-M2M-Origin", origin); ("X-M2M-RVI", "2a");
                ("Accept", "application/json")] 5 w').1 = Returned r)
    (H200 : status_code r = 200%Z)
    (Hrecord : content_of r
               = cin_field (content_instance_payload json_dumps data_dict) "con") :
  (exists posted,
     (run env (create_content_instance json_dumps container_url data_dict origin) w).2
     = [EPost container_url
          [("X-M2M-Origin", origin); ("X-M2M-RVI", "2a");
           ("Accept", "application/json");
           ("Content-Type", "application/json; ty=4");
           ("X-M2M-RI", "create_cin_" +:+ last_segment container_url)]
          (content_instance_payload json_dumps data_dict) 5 posted]) /\
  (run env (get_latest_cin_json json_loads container_url origin) w').1.1
  = VDict data_dict.
Proof.
  split.
  - unfold create_content_instance. cbn [bind run].
    destruct (requests_post env _ _ _ 5 w) as [posted w1]. now exists posted.
  - rewrite run_get_latest_cin_json. simpl. rewrite Hgot.
    rewrite (latest_cin_200 json_loads r H200), Hrecord. simpl.
    destruct (json_dumps (VDict data_dict)) as [|a text] eqn:Hdumps;
      [contradiction|].
    rewrite Hloads. reflexivity.
Qed.

(** X18: when the check finds the policy (a 200 answer from which [ri]
    can be read), [create_or_update_acp] returns that [ri] after this one
    GET: nothing is POSTed. *)
Theorem existing_acp_is_reused
    (parent_url acp_name origin_id origin : string) (w : W) (r : response)
    (ri : value)
    (Hgot : (requests_get env (parent_url +:+ "/" +:+ acp_name)
               (check_headers origin) 5 w).1 = Returned r)
    (H200 : status_code r = 200%Z)
    (Hri : ri_of r = Returned ri) :
  let '(result, _, tr) :=
    run env (create_or_update_acp parent_url acp_name origin_id origin) w in
  result = ri /\ posts tr = [] /\ List.length tr = 1.
Proof.
  unfold create_or_update_acp. cbn [bind run].
  destruct (requests_get env _ _ 5 w) as [got w1]. simpl in Hgot. subst got.
  rewrite H200, Hri. simpl. now split_and!.
Qed.

(** X19: when the check is answered with a status other than 200 and the
    creation with 409, the policy is read once more; if that read is not
    answered 200 either, the result is [None] after these three requests,
    although the 409 says the policy exists. *)
Theorem conflicting_acp_may_give_none
    (parent_url acp_name origin_id origin : string) (w : W) :
  let check_url := parent_url +:+ "/" +:+ acp_name in
  let '(checked, w1) := requests_get env check_url (check_headers origin) 5 w in
  let '(posted, w2) :=
    requests_post env parent_url (acp_headers acp_name origin)
      (acp_payload acp_name origin_id) 5 w1 in
  let '(again, w3) := requests_get env check_url (check_headers origin) 5 w2 in
  forall r1 r2 r3,
    checked = Returned r1 -> status_code r1 <> 200%Z ->
    posted = Returned r2 -> status_code r2 = 409%Z ->
    again = Returned r3 -> status_code r3 <> 200%Z ->
    run env (create_or_update_acp parent_url acp_name origin_id origin) w
    = (VNone, w3,
       [EGet check_url (check_headers origin) 5 checked;
        EPost parent_url (acp_headers acp_name origin)
          (acp_payload acp_name origin_id) 5 posted;
        EGet check_url (check_headers origin) 5 again]).
Proof.
  intros check_url. unfold create_or_update_acp, create_acp. cbn [bind run].
  fold check_url.
  destruct (requests_get env check_url _ 5 w) as [checked w1].
  destruct (requests_post env parent_url _ _ 5 w1) as [posted w2] eqn:Hpost.
  destruct (requests_get env check_url _ 5 w2) as [again w3] eqn:Hagain.
  intros r1 r2 r3 -> H1 -> H2 -> H3.
  apply Z.eqb_neq in H1, H3. rewrite H1. cbn [bind run].
  rewrite Hpost, H2. cbn [Z.eqb Pos.eqb bind run].
  rewrite Hagain, H3. reflexivity.
Qed.

Lemma only_weaken {A} (P Q : event -> Prop) (m : io A) :
  (forall e, P e -> Q e) -> only P m -> only Q m.
Proof.
  intros HPQ. induction m as [a|url hdrs t k IH|url hdrs p t k IH|fmt k IH|k IH];
    simpl; intros Hm.
  - exact I.
  - intros r. destruct (Hm r). split; [now apply HPQ|now apply IH].
  - intros r. destruct (Hm r). split; [now apply HPQ|now apply IH].
  - intros x. now apply IH.
  - intros x. now apply IH.
Qed.

Lemma create_container_known parent_url container_name origin acp_ri_list :
  container_name ∈ created_by_main ->
  only names_known (create_container parent_url container_name origin acp_ri_list).
Proof.
  intros Hin. unfold create_container. cbn [bind only]. intros r. split; [|exact I].
  intros n. destruct (truthy acp_ri_list); simpl; intros [= <-]; now eexists.
Qed.

Lemma create_content_instance_known container_url data_dict origin :
  only names_known (create_content_instance json_dumps container_url data_dict origin).
Proof.
  unfold create_content_instance. cbn [bind only]. intros r. split; [|exact I].
  intros n. simpl. discriminate.
Qed.

Lemma container_with_record_known parent_url container_name acp_ri_list data_dict :
  container_name ∈ created_by_main ->
  only names_known
    (container_with_record json_dumps parent_url container_name acp_ri_list data_dict).
Proof.
  intros Hin. unfold container_with_record.
  apply only_bind; [now apply create_container_known|].
  intros [|]; [|exact I].
  apply only_bind; [apply create_content_instance_known|]. intros _. exact I.
Qed.

Lemma create_or_update_acp_known :
  only names_known (create_or_update_acp CSE_BASE_PATH ACP_NAME ADMIN_ORIGIN ADMIN_ORIGIN).
Proof.
  assert (Hget : forall url hdrs t r, names_known (EGet url hdrs t r)).
  { intros url hdrs t r n. simpl. discriminate. }
  assert (Hcreate :
            only names_known
              (create_acp CSE_BASE_PATH ACP_NAME ADMIN_ORIGIN ADMIN_ORIGIN)).
  { unfold create_acp. cbn [bind only]. intros r. split.
    - intros n. simpl. intros [= <-]. eexists. split; [reflexivity|].
      unfold created_by_main. set_solver.
    - destruct r as [r|e]; [|exact I].
      destruct (status_code r =? 201)%Z; [exact I|].
      destruct (status_code r =? 409)%Z; [|exact I].
      cbn [bind only]. intros r'. split; [apply Hget|].
      destruct r' as [r'|e']; [|exact I].
      now destruct (status_code r' =? 200)%Z. }
  unfold create_or_update_acp. cbn [bind only]. intros r. split; [apply Hget|].
  destruct r as [r|e]; [|apply Hcreate].
  destruct (status_code r =? 200)%Z; [|apply Hcreate].
  destruct (ri_of r); [exact I|apply Hcreate].
Qed.

Lemma main_known : only names_known (main json_dumps).
Proof.
  unfold main.
  apply only_bind.
  { unfold create_ae. cbn [bind only]. intros r. split; [|exact I].
    intros n. simpl. intros [= <-]. eexists. split; [reflexivity|].
    unfold created_by_main. set_solver. }
  intros [|]; [|exact I]. simpl negb. cbv iota.
  apply only_bind; [apply create_or_update_acp_known|].
  intros acp_ri. destruct (truthy acp_ri); [|exact I]. simpl negb. cbv iota.
  apply only_bind;
    [apply create_container_known; unfold created_by_main; set_solver|].
  intros [|]; [|exact I]. simpl negb. cbv iota.
  repeat (apply only_bind;
          [apply container_with_record_known; unfold created_by_main; set_solver
          |intros _]).
  apply only_bind;
    [apply create_container_known; unfold created_by_main; set_solver|].
  intros [|]; [|exact I].
  repeat (apply only_bind;
          [apply create_container_known; unfold created_by_main; set_solver
          |intros _]).
  exact I.
Qed.

(** X20: whatever the server answers, [main] creates no resource named
    "modelRepo": the names it gives are the application, the policy and
    eight containers, and the repository under which it puts the two model
    containers is not one of them. *)
Theorem main_never_creates_model_repo (w : W) :
  REPO_PATH = CSE_BASE_PATH +:+ "/modelRepo" /\
  Forall (fun e => forall n, created_name e = Some n ->
            exists s, n = VStr s /\ s ∈ created_by_main /\ s <> "modelRepo")
         (run env (main json_dumps) w).2.
Proof.
  split; [reflexivity|].
  pose proof (only_run env names_known _ w main_known) as Hall.
  eapply Forall_impl; [exact Hall|].
  intros e He n Hn. destruct (He n Hn) as (s & -> & Hs).
  exists s. split; [reflexivity|]. split; [exact Hs|].
  intros ->. unfold created_by_main in Hs.
  repeat (apply elem_of_cons in Hs as [Hs|Hs]; [discriminate Hs|]).
  now apply elem_of_nil in Hs.
Qed.

(** X21: [main] stops at the first failed prerequisite.  After an
    application creation that is answered neither 201 nor 409 nothing else
    is requested; after a policy step that gives no [ri] no container is
    requested. *)
Theorem main_stops_at_failed_prerequisite (w : W) :
  let '(made, w1, t1) := run env (create_ae CSE_BASE_PATH AE_NAME ADMIN_ORIGIN) w in
  let '(acp_ri, w2, t2) :=
    run env (create_or_update_acp CSE_BASE_PATH ACP_NAME ADMIN_ORIGIN ADMIN_ORIGIN) w1 in
  List.length t1 = 1 /\
  (made = false -> run env (main json_dumps) w = (tt, w1, t1)) /\
  (made = true -> truthy acp_ri = false ->
   run env (main json_dumps) w = (tt, w2, t1 ++ t2)).
Proof.
  unfold main. rewrite run_bind.
  assert (Hlen : List.length
            (run env (create_ae CSE_BASE_PATH AE_NAME ADMIN_ORIGIN) w).2 = 1).
  { unfold create_ae. cbn [bind run].
    now destruct (requests_post env _ _ _ 5 w). }
  destruct (run env (create_ae CSE_BASE_PATH AE_NAME ADMIN_ORIGIN) w)
    as [[made w1] t1].
  destruct (run env (create_or_update_acp CSE_BASE_PATH ACP_NAME
                       ADMIN_ORIGIN ADMIN_ORIGIN) w1) as [[acp_ri w2] t2] eqn:Hacp.
  split; [exact Hlen|]. split.
  - intros ->. simpl. now rewrite app_nil_r.
  - intros -> Hri. simpl negb. cbv iota. rewrite run_bind, Hacp, Hri.
    simpl. now rewrite app_nil_r.
Qed.

(** *** A run in which every step succeeds *)

Section Accepting.
(** The server answers every POST with 201 or 409, and every GET with a
    200 from which an [ri] can be read. *)
Hypothesis Hpost : forall url hdrs p t w,
  created_or_exists (requests_post env url hdrs p t w).1 = true.
Hypothesis Hget : forall url hdrs t w,
  exists r ri, (requests_get env url hdrs t w).1 = Returned r /\
    status_code r = 200%Z /\ ri_of r = Returned ri /\ truthy ri = true.

Lemma create_ae_accepted parent_url ae_name origin w :
  exists w' tr,
    run env (create_ae parent_url ae_name origin) w = (true, w', tr) /\
    event_url <$> tr = [parent_url].
Proof.
  unfold create_ae. cbn [bind run].
  pose proof (Hpost parent_url
    [("X-M2M-Origin", origin); ("X-M2M-RVI", "2a"); ("Accept", "application/json");
     ("Content-Type", "application/json; ty=2");
     ("X-M2M-RI", "create_ae_" +:+ ae_name)]
    (VDict [("m2m:ae", VDict [("rn", VStr ae_name);
                              ("api", VStr "N.org.example.my-app");
                              ("rr", VBool true)])]) 5 w) as H.
  destruct (requests_post env _ _ _ 5 w) as [r w1]. simpl in H. rewrite H.
  now eexists _, _.
Qed.

Lemma create_container_accepted parent_url container_name origin acp_ri_list w :
  exists w' tr,
    run env (create_container parent_url container_name origin acp_ri_list) w
    = (true, w', tr) /\
    event_url <$> tr = [parent_url].
Proof.
  unfold create_container. cbn [bind run].
  match goal with
  | |- context [requests_post env ?u ?h ?p 5 w] =>
      pose proof (Hpost u h p 5 w) as H;
      destruct (requests_post env u h p 5 w) as [r w1]
  end.
  simpl in H. rewrite H. now eexists _, _.
Qed.

Lemma container_with_record_accepted parent_url container_name acp_ri_list data_dict w :
  exists w' tr,
    run env (container_with_record json_dumps parent_url container_name
               acp_ri_list data_dict) w = (tt, w', tr) /\
    event_url <$> tr = [parent_url; parent_url +:+ "/" +:+ container_name].
Proof.
  unfold container_with_record. rewrite run_bind.
  destruct (create_container_accepted parent_url container_name ADMIN_ORIGIN
              acp_ri_list w) as (w1 & t1 & -> & Hu).
  unfold create_content_instance. cbn [bind run].
  destruct (requests_post env _ _ _ 5 w1) as [r w2].
  eexists _, _. split; [reflexivity|].
  rewrite fmap_app, Hu. reflexivity.
Qed.

Lemma create_or_update_acp_accepted parent_url acp_name origin_id origin w :
  exists ri w' tr,
    run env (create_or_update_acp parent_url acp_name origin_id origin) w
    = (ri, w', tr) /\ truthy ri = true /\
    event_url <$> tr = [parent_url +:+ "/" +:+ acp_name].
Proof.
  unfold create_or_update_acp. cbn [bind run].
  destruct (Hget (parent_url +:+ "/" +:+ acp_name) (check_headers origin) 5 w)
    as (r & ri & Hr & H200 & Hri & Htruthy).
  destruct (requests_get env _ _ 5 w) as [got w1]. simpl in Hr. subst got.
  rewrite H200, Hri. simpl. now eexists _, _, _.
Qed.

(** X22: on a server that accepts every creation (201 or 409) and knows
    the policy, [main] makes the same fourteen requests in the same order,
    the four records included: a second run posts the four records
    again. *)
Theorem main_requests_when_accepted (w : W) :
  event_url <$> (run env (main json_dumps) w).2
  = [CSE_BASE_PATH;
     CSE_BASE_PATH +:+ "/" +:+ ACP_NAME;
     AE_PATH;
     REPO_PATH; REPO_PATH +:+ "/" +:+ "mlModel-species";
     REPO_PATH; REPO_PATH +:+ "/" +:+ "mlModel-health";
     DEPLOY_LIST_PATH; DEPLOY_LIST_PATH +:+ "/" +:+ "modelDeploy_species";
     DEPLOY_LIST_PATH; DEPLOY_LIST_PATH +:+ "/" +:+ "modelDeploy_healthy";
     AE_PATH; INFERENCE_PATH; INFERENCE_PATH].
Proof.
  unfold main. rewrite run_bind.
  destruct (create_ae_accepted CSE_BASE_PATH AE_NAME ADMIN_ORIGIN w)
    as (w1 & t1 & -> & Hu1).
  simpl negb. cbv iota. rewrite run_bind.
  destruct (create_or_update_acp_accepted CSE_BASE_PATH ACP_NAME ADMIN_ORIGIN
              ADMIN_ORIGIN w1) as (ri & w2 & t2 & -> & Hri & Hu2).
  rewrite Hri. simpl negb. cbv iota. rewrite run_bind.
  destruct (create_container_accepted AE_PATH "modelDeploymentList" ADMIN_ORIGIN
              (VList [ri]) w2) as (w3 & t3 & -> & Hu3).
  simpl negb. cbv iota. rewrite run_bind.
  destruct (container_with_record_accepted REPO_PATH "mlModel-species" (VList [ri])
              Examples.ML_MODEL_SPECIES_DATA w3) as (w4 & t4 & -> & Hu4).
  rewrite run_bind.
  destruct (container_with_record_accepted REPO_PATH "mlModel-health" (VList [ri])
              Examples.ML_MODEL_HEALTH_DATA w4) as (w5 & t5 & -> & Hu5).
  rewrite run_bind.
  destruct (container_with_record_accepted DEPLOY_LIST_PATH "modelDeploy_species"
              (VList [ri]) Examples.DEPLOY_SPECIES_DATA w5) as (w6 & t6 & -> & Hu6).
  rewrite run_bind.
  destruct (container_with_record_accepted DEPLOY_LIST_PATH "modelDeploy_healthy"
              (VList [ri]) Examples.DEPLOY_HEALTHY_DATA w6) as (w7 & t7 & -> & Hu7).
  rewrite run_bind.
  destruct (create_container_accepted AE_PATH "inference" ADMIN_ORIGIN
              (VList [ri]) w7) as (w8 & t8 & -> & Hu8).
  rewrite run_bind.
  destruct (create_container_accepted INFERENCE_PATH "species" ADMIN_ORIGIN
              (VList [ri]) w8) as (w9 & t9 & -> & Hu9).
  rewrite run_bind.
  destruct (create_container_accepted INFERENCE_PATH "health" ADMIN_ORIGIN
              (VList [ri]) w9) as (w10 & t10 & -> & Hu10).
  cbn [run fst snd]. rewrite !fmap_app.
  rewrite Hu1, Hu2, Hu3, Hu4, Hu5, Hu6, Hu7, Hu8, Hu9, Hu10.
  reflexivity.
Qed.

End Accepting.

End SetupFacts.

Lemma provisioned_record_reads_back_witness :
  (IO.run Scenarios.echo
     (Cse.get_latest_cin_json Examples.loads
        "http://YOUR_SERVER_IP:3000/TinyIoT/modelRepo/mlModel-health"
        Cse.RASPI_ORIGIN)
     (IO.run Scenarios.echo
        (Setup.create_content_instance Examples.dumps
           "http://YOUR_SERVER_IP:3000/TinyIoT/modelRepo/mlModel-health"
           Examples.ML_MODEL_HEALTH_DATA Setup.ADMIN_ORIGIN) None).1.2).1.1
  = Py.VDict Examples.ML_MODEL_HEALTH_DATA.
Proof.
  refine (proj2 (provisioned_record_reads_back Examples.dumps Scenarios.echo
                   Examples.loads _ _ Examples.ML_MODEL_HEALTH_DATA None _
                   {| IO.status_code := 200;
                      IO.json := Py.Returned
                        (Setup.content_instance_payload Examples.dumps
                           Examples.ML_MODEL_HEALTH_DATA) |}
                   _ _ _ _ _ _)).
  - discriminate.
  - vm_compute. discriminate.
  - vm_compute. reflexivity.
  - reflexivity.
  - reflexivity.
  - reflexivity.
Defined.

Lemma existing_acp_is_reused_witness :
  (IO.run (Scenarios.policy_server 201)
     (Setup.create_or_update_acp Setup.CSE_BASE_PATH Setup.ACP_NAME
        Setup.ADMIN_ORIGIN Setup.ADMIN_ORIGIN) tt).1.1
  = Py.VStr "acp1".
Proof.
  pose proof (existing_acp_is_reused (Scenarios.policy_server 201)
                Setup.CSE_BASE_PATH Setup.ACP_NAME Setup.ADMIN_ORIGIN
                Setup.ADMIN_ORIGIN tt
                {| IO.status_code := 200;
                   IO.json := Py.Returned
                     (Py.VDict [("m2m:acp", Py.VDict [("ri", Py.VStr "acp1")])]) |}
                (Py.VStr "acp1") eq_refl eq_refl eq_refl) as H.
  destruct (IO.run (Scenarios.policy_server 201) _ tt) as [[result w'] tr].
  exact (proj1 H).
Defined.

Lemma conflicting_acp_may_give_none_witness :
  (IO.run Scenarios.conflicts
     (Setup.create_or_update_acp Setup.CSE_BASE_PATH Setup.ACP_NAME
        Setup.ADMIN_ORIGIN Setup.ADMIN_ORIGIN) tt).1.1
  = Py.VNone.
Proof.
  refine (f_equal (fun x => x.1.1)
            (conflicting_acp_may_give_none Scenarios.conflicts
               Setup.CSE_BASE_PATH Setup.ACP_NAME Setup.ADMIN_ORIGIN
               Setup.ADMIN_ORIGIN tt _ _ _ eq_refl _ eq_refl eq_refl eq_refl _)).
  - discriminate.
  - discriminate.
Defined.

Lemma main_stops_at_failed_prerequisite_witness :
  IO.run (Scenarios.policy_server 500) (Setup.main Examples.dumps) tt
  = (tt, tt,
     (IO.run (Scenarios.policy_server 500)
        (Setup.create_ae Setup.CSE_BASE_PATH Cse.AE_NAME Setup.ADMIN_ORIGIN) tt).2).
Proof.
  pose proof (main_stops_at_failed_prerequisite Examples.dumps
                (Scenarios.policy_server 500) tt) as H.
  destruct (IO.run (Scenarios.policy_server 500)
              (Setup.create_ae Setup.CSE_BASE_PATH Cse.AE_NAME Setup.ADMIN_ORIGIN) tt)
    as [[made []] t1] eqn:Hae.
  assert (Hmade : made = false).
  { pose proof Hae as Hc. vm_compute in Hc. now injection Hc as <- _. }
  destruct (IO.run (Scenarios.policy_server 500) _ tt) as [[acp_ri w2] t2] in H.
  destruct H as (_ & Hstop & _).
  exact (Hstop Hmade).
Defined.

Lemma main_requests_when_accepted_witness :
  List.length (IO.run (Scenarios.policy_server 409) (Setup.main Examples.dumps) tt).2
  = 14.
Proof.
  pose proof (main_requests_when_accepted Examples.dumps (Scenarios.policy_server 409))
    as H.
  rewrite <- (length_fmap Requests.event_url).
  rewrite H; [reflexivity| |].
  - intros url hdrs p t w. reflexivity.
  - intros url hdrs t w. eexists _, _. split; [reflexivity|].
    split; [reflexivity|]. split; reflexivity.
Defined.

Example main_on_fresh_server :
  Requests.event_url <$>
    (IO.run (Scenarios.policy_server 201) (Setup.main Examples.dumps) tt).2
  = ["http://YOUR_SERVER_IP:3000/TinyIoT";
     "http://YOUR_SERVER_IP:3000/TinyIoT/acp_pi_full_access";
     "http://YOUR_SERVER_IP:3000/TinyIoT/TinyFarm";
     "http://YOUR_SERVER_IP:3000/TinyIoT/modelRepo";
     "http://YOUR_SERVER_IP:3000/TinyIoT/modelRepo/mlModel-species";
     "http://YOUR_SERVER_IP:3000/TinyIoT/modelRepo";
     "http://YOUR_SERVER_IP:3000/TinyIoT/modelRepo/mlModel-health";
     "http://YOUR_SERVER_IP:3000/TinyIoT/TinyFarm/modelDeploymentList";
     "http://YOUR_SERVER_IP:3000/TinyIoT/TinyFarm/modelDeploymentList/modelDeploy_species";
     "http://YOUR_SERVER_IP:3000/TinyIoT/TinyFarm/modelDeploymentList";
     "http://YOUR_SERVER_IP:3000/TinyIoT/TinyFarm/modelDeploymentList/modelDeploy_healthy";
     "http://YOUR_SERVER_IP:3000/TinyIoT/TinyFarm";
     "http://YOUR_SERVER_IP:3000/TinyIoT/TinyFarm/inference";
     "http://YOUR_SERVER_IP:3000/TinyIoT/TinyFarm/inference"].
Proof. vm_compute. reflexivity. Qed.
